(** * Vote casting and reconciliation: a shallow embedding

    The development follows the Python sources of the voting application:
    - [voting/emailjs_service.py]  (one-time codes kept in the cache),
    - [voting/models.py], [blockchain/models.py]  (the relational schema),
    - [blockchain/blockchain_client.py]  (the ledger client and the audit),
    - [blockchain/management/commands/blockchain_ops.py]  (audit bands),
    - [voting/views.py]  ([CastVoteView.post], the submission coordinator).

    Python functions that only compute become Rocq functions.  Code that
    touches the cache, the database, the session or the ledger is written in
    a state-and-exception monad, so that [try ... except] blocks, early
    [return]s and the order of effects read as in the source. *)

From Stdlib Require Import Ascii String ZArith Floats Uint63.
From stdpp Require Import base strings gmap list pretty.

(** ** Python exceptions and the effect monad *)

Inductive exn_class :=
  | JSONDecodeError
  | VoterDoesNotExist
  | PoliticalPartyDoesNotExist
  | BlockchainNetworkDoesNotExist
  | MultipleObjectsReturned
  | IntegrityError
  | TransactionManagementError
  | AttributeError
  | RuntimeFault.        (* any other subclass of Exception: transport, cache, ... *)

#[global] Instance exn_class_eq_dec : EqDecision exn_class.
Proof. solve_decision. Defined.

Record exn := Exn { exn_cls : exn_class; exn_str : string }.

Inductive result (A : Type) :=
  | Returns (a : A)
  | Raises (e : exn).
Arguments Returns {A} a.
Arguments Raises {A} e.

(** A computation over a store [S] either returns or raises, and in both
    cases leaves a store behind (Python does not undo effects on raise). *)
Definition M (S A : Type) : Type := S -> result A * S.

Definition ret {S A} (a : A) : M S A := fun s => (Returns a, s).

Definition raise {S A} (e : exn) : M S A := fun s => (Raises e, s).

Definition bind {S A B} (m : M S A) (k : A -> M S B) : M S B :=
  fun s => match m s with
           | (Returns a, s') => k a s'
           | (Raises e, s') => (Raises e, s')
           end.

(** [try: body except Exception as e: handler e] *)
Definition try_except {S A} (body : M S A) (handler : exn -> M S A) : M S A :=
  fun s => match body s with
           | (Returns a, s') => (Returns a, s')
           | (Raises e, s') => handler e s'
           end.

(** [try: body except cls: handler] for one exception class. *)
Definition try_except_on {S A} (cls : exn_class)
    (body : M S A) (handler : M S A) : M S A :=
  fun s => match body s with
           | (Returns a, s') => (Returns a, s')
           | (Raises e, s') =>
               if bool_decide (exn_cls e = cls) then handler s' else (Raises e, s')
           end.

Definition gets {S A} (f : S -> A) : M S A := fun s => (Returns (f s), s).

Definition modify {S} (f : S -> S) : M S unit := fun s => (Returns tt, f s).

Declare Scope py_scope.
Delimit Scope py_scope with py.
Notation "x <- c1 ;; c2" := (bind c1 (fun x => c2))
  (at level 100, c1 at next level, right associativity) : py_scope.
Notation "c1 ;;; c2" := (bind c1 (fun _ => c2))
  (at level 100, right associativity) : py_scope.

(** Values the platform computes and the model does not look into: SHA-256
    and the decimal rendering of the float returned by [time.time()].  A
    wall-clock reading is a number of microseconds since the epoch. *)
Class Platform := {
  sha256_hexdigest : string -> string;
  str_of_time : Z -> string;
}.

(** [int(time.time())] *)
Definition int_of_time (t : Z) : Z := Z.quot t 1000000.

(** [s.split(sep)[0]] *)
Fixpoint split_head (sep : Ascii.ascii) (s : string) : string :=
  match s with
  | EmptyString => EmptyString
  | String c rest =>
      if bool_decide (c = sep) then EmptyString else String c (split_head sep rest)
  end.

(** Python truthiness of a string. *)
Definition truthy (s : string) : bool := negb (bool_decide (s = "")).

(** A [uuid.UUID] object, kept by its canonical text [str(u)]. *)
Record UUID := MkUUID { uuid_str : string }.

(** The value a caller hands over where the code expects a party
    identifier: a [str], or the [uuid.UUID] that a [UUIDField] reads back. *)
Inductive py_id :=
  | PyStr (s : string)
  | PyUUID (u : UUID).

(** [s == v] for a [str] [s]: a [str] and a [UUID] never compare equal. *)
Definition str_eq (s : string) (v : py_id) : bool :=
  match v with
  | PyStr s' => bool_decide (s = s')
  | PyUUID _ => false
  end.

(** ** voting/emailjs_service.py *)

Module EmailJS.
Local Open Scope Z_scope.
Local Open Scope py_scope.

(** The dictionary kept under [email_verification_<email>]. *)
Record verification_data := VerificationData {
  code : string;
  created_at : Z;
  attempts : Z;
}.

(** The cache backend.  An entry set at time [t] with timeout [d] is live
    while the clock is before [t + d].  The backend can be out of order:
    [faulty op] tells which operations raise. *)
Inductive cache_op := OpGet | OpSet | OpDelete.

Record cache_entry := CacheEntry { value : verification_data; expires_at : Z }.

Record Cache := MkCache {
  entries : gmap string cache_entry;
  now : Z;
  faulty : cache_op -> bool;
}.

Definition cache_fault (op : string) : exn := Exn RuntimeFault ("cache backend: " +:+ op).

Definition cache_get (key : string) : M Cache (option verification_data) :=
  fun c =>
    if faulty c OpGet then (Raises (cache_fault "get"), c)
    else match entries c !! key with
         | Some e => if now c <? expires_at e then (Returns (Some (value e)), c)
                     else (Returns None, c)
         | None => (Returns None, c)
         end.

Definition cache_set (key : string) (v : verification_data) (timeout : Z) : M Cache unit :=
  fun c =>
    if faulty c OpSet then (Raises (cache_fault "set"), c)
    else (Returns tt,
          MkCache (<[key := CacheEntry v (now c + timeout)]> (entries c)) (now c) (faulty c)).

Definition cache_delete (key : string) : M Cache unit :=
  fun c =>
    if faulty c OpDelete then (Raises (cache_fault "delete"), c)
    else (Returns tt, MkCache (delete key (entries c)) (now c) (faulty c)).

Record EmailJSService := MkService {
  service_id : string;
  template_id : string;
  public_key : string;
  private_key : string;
  code_length : Z;
  code_expiry_minutes : Z;
  max_attempts : Z;
}.

(** [EmailJSService.__init__] *)
Definition init (sid tid pub priv : string) : EmailJSService :=
  MkService sid tid pub priv 6 15 3.

Definition is_configured (self : EmailJSService) : bool :=
  truthy (service_id self) && truthy (template_id self)
  && truthy (public_key self) && truthy (private_key self).

Definition cache_key (email : string) : string := "email_verification_" +:+ email.

Record template_params := TemplateParams {
  to_email : string;
  to_name : string;
  verification_code : string;
  expiry_minutes : Z;
}.

(** The dictionaries the service returns. *)
Record response := Response {
  success : bool;
  message : option string;
  error : option string;
  error_code : option string;
  remaining_attempts : option Z;
  emailjs_config : option (string * string * string * template_params);
}.

Definition failure (err code_ : string) : response :=
  Response false None (Some err) (Some code_) None None.

Definition store_verification_code (self : EmailJSService) (email code_ : string)
  : M Cache bool :=
  try_except
    (t <- gets now ;;
     cache_set (cache_key email) (VerificationData code_ t 0)
               (code_expiry_minutes self * 60) ;;;
     ret true)
    (fun _ => ret false).

Definition get_verification_data (email : string) : M Cache (option verification_data) :=
  try_except (cache_get (cache_key email)) (fun _ => ret None).

Definition clear_verification_code (email : string) : M Cache bool :=
  try_except (cache_delete (cache_key email) ;;; ret true) (fun _ => ret false).

Definition verify_code (self : EmailJSService) (email provided_code : string)
  : M Cache response :=
  try_except
    (verification_data <- get_verification_data email ;;
     match verification_data with
     | None =>
         ret (failure "No verification code found or code has expired" "CODE_NOT_FOUND")
     | Some vd =>
         if max_attempts self <=? attempts vd then
           clear_verification_code email ;;;
           ret (failure "Maximum verification attempts exceeded" "MAX_ATTEMPTS_EXCEEDED")
         else
           let vd' := VerificationData (code vd) (created_at vd) (attempts vd + 1) in
           cache_set (cache_key email) vd' (code_expiry_minutes self * 60) ;;;
           if bool_decide (code vd' = provided_code) then
             clear_verification_code email ;;;
             ret (Response true (Some "Email verified successfully") None None None None)
           else
             let remaining := max_attempts self - attempts vd' in
             ret (Response false None
                    (Some ("Invalid verification code. " +:+ pretty remaining
                           +:+ " attempts remaining"))
                    (Some "INVALID_CODE") (Some remaining) None)
     end)
    (fun _ => ret (failure "Verification failed due to system error" "SYSTEM_ERROR")).

(** [random_code] is what [generate_verification_code] draws from
    [random.choices(string.digits, k=6)]. *)
Definition send_verification_email (self : EmailJSService) (random_code : string)
    (email : string) (voter_name : option string) (verification_code_ : option string)
  : M Cache response :=
  try_except
    (if negb (is_configured self) then
       ret (failure "EmailJS is not properly configured" "NOT_CONFIGURED")
     else
       let finish (c : string) :=
         ret (Response true (Some "Verification code generated successfully")
                None None None
                (Some (service_id self, template_id self, public_key self,
                       TemplateParams email
                         (match voter_name with
                          | Some n => if truthy n then n else split_head "@"%char email
                          | None => split_head "@"%char email
                          end)
                         c (code_expiry_minutes self)))) in
       match verification_code_ with
       | Some c => finish c
       | None =>
           stored <- store_verification_code self email random_code ;;
           if negb stored then
             ret (failure "Failed to store verification code" "STORAGE_ERROR")
           else finish random_code
       end)
    (fun _ => ret (failure "Failed to send verification email" "SEND_ERROR")).

(** The environment between two calls: the clock moves, the backend's health
    may change, the entries stay. *)
Definition at_time (t : Z) (f : cache_op -> bool) (c : Cache) : Cache :=
  MkCache (entries c) t f.

Definition healthy : cache_op -> bool := fun _ => false.

End EmailJS.

(** ** voting/models.py and blockchain/models.py *)

Module Models.
Local Open Scope Z_scope.
Local Open Scope py_scope.

Record Voter := MkVoter {
  voter_pk : string;
  full_name : string;
  email : string;
  aadhaar_number : string;
  voter_is_active : bool;
  has_voted : bool;
}.

Record PoliticalParty := MkParty {
  party_pk : string;
  party_id : string;
  party_name : string;
  party_is_active : bool;
}.

Record Vote := MkVote {
  vote_pk : string;
  voter : string;                       (* ForeignKey(Voter) *)
  political_party : string;             (* ForeignKey(PoliticalParty) *)
  blockchain_hash : option string;      (* unique=True, null=True *)
  blockchain_block_number : option Z;
  voted_at : Z;
  is_valid : bool;
  ip_address : option string;
}.

Record VotingSession := MkVotingSession {
  session_is_active : bool;
  start_time : Z;
  end_time : Z;
}.

Record BlockchainNetwork := MkNetwork {
  network_pk : string;
  network_name : string;                (* unique=True *)
  rpc_url : string;
  chain_id : Z;
  network_is_active : bool;
  network_created_at : Z;               (* auto_now_add=True *)
}.

Record BlockchainTransaction := MkTransaction {
  transaction_pk : string;
  transaction_hash : string;            (* unique=True *)
  transaction_type : string;
  status : string;
  from_address : string;
  to_address : string;
  gas_used : option Z;
  gas_price : option Z;
  block_number : option Z;
  block_hash : string;
  network : string;                     (* ForeignKey(BlockchainNetwork) *)
  transaction_data : string;
  transaction_created_at : Z;           (* auto_now_add=True *)
}.

(** A [VoteRecord] as the ORM hands it out: the row together with the
    related transaction reached through [record.blockchain_transaction].
    [party_id] is a [UUIDField], so the attribute of a loaded row is a
    [uuid.UUID]. *)
Record VoteRecord := MkVoteRecord {
  record_pk : string;
  voter_hash : string;
  record_party_id : UUID;
  vote_timestamp : Z;
  blockchain_transaction : option BlockchainTransaction;
  merkle_proof : option string;
  created_at : Z;
}.

Record Database := MkDatabase {
  voters : list Voter;
  parties : list PoliticalParty;
  votes : list Vote;
  voting_sessions : list VotingSession;
  networks : list BlockchainNetwork;
  transactions : list BlockchainTransaction;
  vote_records : list VoteRecord;
}.

(** [BlockchainTransaction.is_confirmed] *)
Definition is_confirmed (t : BlockchainTransaction) : bool :=
  bool_decide (status t = "confirmed") && bool_decide (block_number t <> None).

(** [VoteRecord.is_verified]: a property with a getter only.  Reading it
    follows the relation; [None] has no attribute [is_confirmed]. *)
Definition is_verified (r : VoteRecord) : result bool :=
  match blockchain_transaction r with
  | Some t => Returns (is_confirmed t)
  | None => Raises (Exn AttributeError "'NoneType' object has no attribute 'is_confirmed'")
  end.

(** [record.is_verified = v]: the property has no setter, so the
    assignment raises and the object stays as it was. *)
Definition set_is_verified (r : VoteRecord) (v : bool) : result VoteRecord :=
  Raises (Exn AttributeError "property 'is_verified' of 'VoteRecord' object has no setter").

(** [Vote.objects.filter(voter=v)] *)
Definition votes_of (v : string) (d : Database) : list Vote :=
  filter (fun x => voter x = v) (votes d).

(** The constraints the [Vote] table declares: the primary key, the unique
    nullable [blockchain_hash] (NULLs never collide) and
    [unique_together = ['voter', 'political_party']]. *)
Definition vote_conflict (new old : Vote) : bool :=
  bool_decide (vote_pk old = vote_pk new)
  || match blockchain_hash new with
     | Some h => bool_decide (blockchain_hash old = Some h)
     | None => false
     end
  || (bool_decide (voter old = voter new)
      && bool_decide (political_party old = political_party new)).

Definition set_votes (vs : list Vote) (d : Database) : Database :=
  MkDatabase (voters d) (parties d) vs (voting_sessions d) (networks d)
             (transactions d) (vote_records d).

Definition set_voters (vs : list Voter) (d : Database) : Database :=
  MkDatabase vs (parties d) (votes d) (voting_sessions d) (networks d)
             (transactions d) (vote_records d).

Definition set_networks (ns : list BlockchainNetwork) (d : Database) : Database :=
  MkDatabase (voters d) (parties d) (votes d) (voting_sessions d) ns
             (transactions d) (vote_records d).

Definition set_transactions (ts : list BlockchainTransaction) (d : Database) : Database :=
  MkDatabase (voters d) (parties d) (votes d) (voting_sessions d) (networks d)
             ts (vote_records d).

Definition set_vote_records (rs : list VoteRecord) (d : Database) : Database :=
  MkDatabase (voters d) (parties d) (votes d) (voting_sessions d) (networks d)
             (transactions d) rs.

(** [Vote.objects.create(...)]: the INSERT, refused by the storage layer
    with [IntegrityError] when a declared constraint is violated. *)
Definition Vote_insert (v : Vote) : M Database Vote :=
  fun d =>
    if existsb (vote_conflict v) (votes d)
    then (Raises (Exn IntegrityError "UNIQUE constraint failed: voting_vote"), d)
    else (Returns v, set_votes (votes d ++ [v]) d).

(** [voter.save()]: UPDATE of the row with the object's primary key. *)
Definition Voter_save (v : Voter) : M Database unit :=
  modify (fun d =>
    set_voters (map (fun x => if bool_decide (voter_pk x = voter_pk v) then v else x)
                    (voters d)) d).

(** [record.save()] on a [VoteRecord]. *)
Definition VoteRecord_save (r : VoteRecord) : M Database unit :=
  modify (fun d =>
    set_vote_records
      (map (fun x => if bool_decide (record_pk x = record_pk r) then r else x)
           (vote_records d)) d).

(** The INSERT of a [BlockchainTransaction]: the primary key and
    [transaction_hash] are unique. *)
Definition Transaction_insert (t : BlockchainTransaction) : M Database BlockchainTransaction :=
  fun d =>
    if existsb (fun o => bool_decide (transaction_pk o = transaction_pk t)
                         || bool_decide (transaction_hash o = transaction_hash t))
               (transactions d)
    then (Raises (Exn IntegrityError "UNIQUE constraint failed: blockchain_blockchaintransaction"), d)
    else (Returns t, set_transactions (transactions d ++ [t]) d).

(** The INSERT of a [BlockchainNetwork]: the primary key and
    [network_name] are unique. *)
Definition Network_insert (n : BlockchainNetwork) : M Database BlockchainNetwork :=
  fun d =>
    if existsb (fun o => bool_decide (network_pk o = network_pk n)
                         || bool_decide (network_name o = network_name n))
               (networks d)
    then (Raises (Exn IntegrityError "UNIQUE constraint failed: blockchain_blockchainnetwork"), d)
    else (Returns n, set_networks (networks d ++ [n]) d).

(** [count(Vote where voter = X)] *)
Definition vote_count_of (v : string) (d : Database) : nat := length (votes_of v d).

End Models.

(** ** blockchain/blockchain_client.py *)

Module Ledger.
Import Models.
Local Open Scope Z_scope.
Local Open Scope py_scope.

(** The calls the client makes into web3. *)
Inductive lib_call :=
  | GetBlockLatest | ChainId | ToBytes | HasVoted | IsVotingActive
  | EstimateGas | GasPrice | GetTransactionCount | BuildTransaction
  | SignTransaction | SendRawTransaction | WaitForTransactionReceipt
  | GetTransactionReceipt | ProcessReceipt.

(** The dictionary [cast_vote_on_blockchain] returns. *)
Record cast_result := CastResult {
  success : bool;
  result_transaction_hash : option string;
  result_block_number : option Z;
  message : string;
}.

(** What an observer of one request sees happen, oldest event last in
    [trace].  [SubmitBegin] and [SubmitEnd] mark the entry into and the
    return from [cast_vote_on_blockchain]. *)
Inductive event :=
  | LibCall (c : lib_call) (raised : bool)
  | SubmitBegin
  | SubmitEnd (r : cast_result)
  | DbWrite (table : string).

(** The state of the database connection that the query layer and
    [transaction.atomic] share: whether an [atomic] block is open, and
    whether the running transaction is marked for rollback. *)
Record Connection := MkConnection {
  in_atomic_block : bool;
  needs_rollback : bool;
}.

Record World := MkWorld {
  db : Database;
  session : gmap string string;
  trace : list event;
  clock : nat -> Z;             (* successive readings of the wall clock *)
  ticks : nat;
  uuid_source : nat -> string;  (* successive results of uuid.uuid4() *)
  uuids_drawn : nat;
  connection : Connection;
}.

Definition log (e : event) : M World unit :=
  modify (fun w => MkWorld (db w) (session w) (e :: trace w) (clock w) (ticks w)
                           (uuid_source w) (uuids_drawn w) (connection w)).

(** [time.time()] and [timezone.now()] *)
Definition time_time : M World Z :=
  fun w => (Returns (clock w (ticks w)),
            MkWorld (db w) (session w) (trace w) (clock w) (S (ticks w))
                    (uuid_source w) (uuids_drawn w) (connection w)).

Definition uuid4 : M World string :=
  fun w => (Returns (uuid_source w (uuids_drawn w)),
            MkWorld (db w) (session w) (trace w) (clock w) (ticks w)
                    (uuid_source w) (S (uuids_drawn w)) (connection w)).

Definition with_db (d : Database) (w : World) : World :=
  MkWorld d (session w) (trace w) (clock w) (ticks w) (uuid_source w) (uuids_drawn w)
          (connection w).

Definition with_session (s : gmap string string) (w : World) : World :=
  MkWorld (db w) s (trace w) (clock w) (ticks w) (uuid_source w) (uuids_drawn w)
          (connection w).

Definition with_connection (c : Connection) (w : World) : World :=
  MkWorld (db w) (session w) (trace w) (clock w) (ticks w) (uuid_source w) (uuids_drawn w) c.

(** [connection.validate_no_broken_transaction()], which the cursor runs
    before every statement. *)
Definition validate_no_broken_transaction : M World unit :=
  fun w =>
    if needs_rollback (connection w)
    then (Raises (Exn TransactionManagementError
                    "An error occurred in the current transaction. You can't execute queries until the end of the 'atomic' block."),
          w)
    else (Returns tt, w).

(** [transaction.mark_for_rollback_on_error], under which [Model.save()]
    runs its statement: an error inside an [atomic] block marks the
    transaction. *)
Definition mark_for_rollback_on_error (w : World) : World :=
  if in_atomic_block (connection w)
  then with_connection (MkConnection true true) w
  else w.

(** A query that only reads. *)
Definition db_read {A} (q : Database -> A) : M World A :=
  validate_no_broken_transaction ;;;
  gets (fun w => q (db w)).

(** The statement of a [save()] or [create()]. *)
Definition db_exec {A} (m : M Database A) : M World A :=
  validate_no_broken_transaction ;;;
  fun w => match m (db w) with
           | (Returns a, d) => (Returns a, with_db d w)
           | (Raises e, d) => (Raises e, mark_for_rollback_on_error (with_db d w))
           end.

(** A statement that writes when it succeeds. *)
Definition db_write {A} (table : string) (m : M Database A) : M World A :=
  a <- db_exec m ;;
  log (DbWrite table) ;;;
  ret a.

(** [with transaction.atomic():].  The outermost block starts a
    transaction with a clean mark; a nested block takes a savepoint, unless
    the transaction is already marked.  Leaving by an exception, or with
    the mark set, takes the database back to where the block began; what
    went to the ledger stays there.  Afterwards the mark is clear, except in
    a nested block that had no savepoint to go back to. *)
Definition atomic {A} (block : M World A) : M World A :=
  fun w =>
    let nested := in_atomic_block (connection w) in
    let marked := nested && needs_rollback (connection w) in
    let leave := with_connection (MkConnection nested marked) in
    match block (with_connection (MkConnection true marked) w) with
    | (Returns a, w') =>
        (Returns a, leave (if needs_rollback (connection w') then with_db (db w) w' else w'))
    | (Raises e, w') => (Raises e, leave (with_db (db w) w'))
    end.

Definition lift {A} (r : result A) : M World A := fun w => (r, w).

(** A call into web3: it is observed, then returns or raises. *)
Definition call {A} (c : lib_call) (r : result A) : M World A :=
  match r with
  | Returns a => log (LibCall c false) ;;; ret a
  | Raises e => log (LibCall c true) ;;; raise e
  end.

Record receipt := Receipt {
  receipt_status : Z;
  receipt_from : option string;
  receipt_to : option string;
  gasUsed : option Z;
  effectiveGasPrice : option Z;
  blockNumber : Z;
  blockHash : option string;
}.

Record tx_params := TxParams {
  tx_from : string;
  tx_gas : Z;
  tx_gasPrice : Z;
  tx_nonce : Z;
}.

(** The answers of the RPC endpoint and of the local web3 helpers. *)
Record Node := MkNode {
  eth_get_block_latest : result Z;
  eth_chain_id : result Z;
  eth_gas_price : result Z;
  eth_get_transaction_count : string -> result Z;
  to_bytes : string -> result string;
  hasVoted : string -> result bool;
  isVotingActive : result bool;
  castVote_estimate_gas : string -> string -> string -> result Z;
  castVote_build_transaction : string -> string -> tx_params -> result string;
  sign_transaction : string -> option string -> result string;
  eth_send_raw_transaction : string -> result string;
  eth_wait_for_transaction_receipt : string -> result receipt;
  eth_get_transaction_receipt : string -> result receipt;
  VoteCast_process_receipt : receipt -> result (list (string * string));
}.

Record BlockchainClient := MkClient {
  network_url : string;
  private_key : option string;
  contract_address : option string;
  account : option string;      (* the account's address, when a key is set *)
  contract : bool;              (* [self.contract] is loaded *)
  w3 : Node;
  SECRET_KEY : string;
}.

Section Client.
Context {platform : Platform}.
Variable self : BlockchainClient.

Definition test_connection : M World bool :=
  try_except
    (call GetBlockLatest (eth_get_block_latest (w3 self)) ;;; ret true)
    (fun _ => ret false).

(** [voter_data] carries [email], [aadhaar_number] and [id]. *)
Definition generate_voter_hash (email_ aadhaar id : string) : string :=
  let identifier := email_ +:+ aadhaar +:+ id in
  let salted_identifier := identifier +:+ SECRET_KEY self in
  "0x" +:+ sha256_hexdigest salted_identifier.

Definition has_voter_voted (voter_hash_ : string) : M World bool :=
  if negb (contract self) then ret false
  else
    try_except
      (voter_hash_bytes <- call ToBytes (to_bytes (w3 self) voter_hash_) ;;
       has_voted_ <- call HasVoted (hasVoted (w3 self) voter_hash_bytes) ;;
       ret has_voted_)
      (fun _ => ret false).

(** [party_id] is annotated [str]; the view passes a [str], the audit
    passes the attribute of a stored [VoteRecord].  A decoded event is the
    pair of [event['args']['voterHash'].hex()] and
    [event['args']['partyId']], both of type [str]. *)
Definition verify_vote_on_blockchain (voter_hash_ : string) (party_id_ : py_id)
    (tx_hash : string) : M World bool :=
  try_except
    (rc <- call GetTransactionReceipt (eth_get_transaction_receipt (w3 self) tx_hash) ;;
     if negb (receipt_status rc =? 1) then ret false
     else if contract self then
       vote_events <- call ProcessReceipt (VoteCast_process_receipt (w3 self) rc) ;;
       ret (existsb (fun ev => bool_decide (ev.1 = voter_hash_)
                               && str_eq ev.2 party_id_) vote_events)
     else ret false)
    (fun _ => ret false).

(** [self.account.address] *)
Definition account_address : M World string :=
  match account self with
  | Some a => ret a
  | None => raise (Exn AttributeError "'NoneType' object has no attribute 'address'")
  end.

(** [BlockchainNetwork.objects.get(network_name=n)] *)
Definition BlockchainNetwork_get (n : string) : M World BlockchainNetwork :=
  found <- db_read (fun d => filter (fun x => network_name x = n) (networks d)) ;;
  match found with
  | [] => raise (Exn BlockchainNetworkDoesNotExist
                   "BlockchainNetwork matching query does not exist.")
  | [x] => ret x
  | _ => raise (Exn MultipleObjectsReturned
                  "get() returned more than one BlockchainNetwork")
  end.

(** [BlockchainNetwork.objects.get_or_create(network_name=n, defaults=...)]:
    the row when there is one; otherwise a new object is built (its [id] is
    drawn) and saved (its [created_at] is read) inside an [atomic] block of
    its own, and an [IntegrityError] of that INSERT is answered by a second
    lookup. *)
Definition BlockchainNetwork_get_or_create (n rpc : string) (chain : Z) (active : bool)
  : M World BlockchainNetwork :=
  try_except_on BlockchainNetworkDoesNotExist
    (BlockchainNetwork_get n)
    (try_except
       (atomic (pk <- uuid4 ;;
                created <- time_time ;;
                db_write "blockchain_blockchainnetwork"
                  (Network_insert (MkNetwork pk n rpc chain active created))))
       (fun e =>
          if bool_decide (exn_cls e = IntegrityError)
          then try_except_on BlockchainNetworkDoesNotExist (BlockchainNetwork_get n) (raise e)
          else raise e)).

(** [BlockchainTransaction.objects.create(...)] builds the object (its
    [id] is drawn) and saves it (its [created_at] is read, then the INSERT
    runs). *)
Definition record_blockchain_transaction (tx_hash tx_type : string) (rc : receipt)
    (metadata : string) : M World (option BlockchainTransaction) :=
  try_except
    (chain <- call ChainId (eth_chain_id (w3 self)) ;;
     network_ <- BlockchainNetwork_get_or_create "default" (network_url self) chain true ;;
     pk <- uuid4 ;;
     created <- time_time ;;
     t <- db_write "blockchain_blockchaintransaction"
            (Transaction_insert
               (MkTransaction pk tx_hash tx_type
                  (if receipt_status rc =? 1 then "CONFIRMED" else "FAILED")
                  (default "" (receipt_from rc)) (default "" (receipt_to rc))
                  (Some (default 0 (gasUsed rc)))
                  (Some (default 0 (effectiveGasPrice rc)))
                  (Some (blockNumber rc))
                  (default "" (blockHash rc))
                  (network_pk network_) metadata created)) ;;
     ret (Some t))
    (fun _ => ret None).

(** The dictionary of a simulated submission: the placeholder identifier is
    a digest of the voter hash, the party and the clock reading. *)
Definition simulated (voter_hash_ party_id_ msg : string) : M World cast_result :=
  t1 <- time_time ;;
  t2 <- time_time ;;
  ret (CastResult true
         (Some ("0x" +:+ sha256_hexdigest (voter_hash_ +:+ party_id_ +:+ str_of_time t1)))
         (Some (int_of_time t2 `mod` 1000000))
         msg).

Definition rejected (msg : string) : cast_result := CastResult false None None msg.

(** The body of the [try] in [cast_vote_on_blockchain]. *)
Definition cast_vote_body (voter_hash_ party_id_ : string) : M World cast_result :=
  if negb (contract self) then
    simulated voter_hash_ party_id_ "Vote recorded (simulated - blockchain not configured)"
  else
    connected <- test_connection ;;
    if negb connected then
      simulated voter_hash_ party_id_ "Vote recorded (simulated - connection failed)"
    else
      already <- has_voter_voted voter_hash_ ;;
      if already then ret (rejected "Voter has already cast a vote on blockchain")
      else
        inactive <- try_except
                      (voting_active <- call IsVotingActive (isVotingActive (w3 self)) ;;
                       ret (negb voting_active))
                      (fun _ => ret false) ;;
        if inactive then
          ret (rejected "Voting is not currently active on the blockchain")
        else
          voter_hash_bytes <- call ToBytes (to_bytes (w3 self) voter_hash_) ;;
          gas_estimate <- try_except
                            (addr <- account_address ;;
                             call EstimateGas
                               (castVote_estimate_gas (w3 self) voter_hash_bytes party_id_ addr))
                            (fun _ => ret 200000) ;;
          from_ <- account_address ;;
          gas_price_ <- call GasPrice (eth_gas_price (w3 self)) ;;
          nonce_addr <- account_address ;;
          nonce <- call GetTransactionCount (eth_get_transaction_count (w3 self) nonce_addr) ;;
          transaction_ <- call BuildTransaction
                            (castVote_build_transaction (w3 self) voter_hash_bytes party_id_
                               (TxParams from_ (Z.min (gas_estimate + 50000) 500000)
                                         gas_price_ nonce)) ;;
          signed_txn <- call SignTransaction
                          (sign_transaction (w3 self) transaction_ (private_key self)) ;;
          tx_hash <- call SendRawTransaction (eth_send_raw_transaction (w3 self) signed_txn) ;;
          rc <- call WaitForTransactionReceipt
                  (eth_wait_for_transaction_receipt (w3 self) tx_hash) ;;
          if receipt_status rc =? 1 then
            record_blockchain_transaction tx_hash "VOTE_CAST" rc
              (voter_hash_ +:+ "," +:+ party_id_) ;;;
            ret (CastResult true (Some tx_hash) (Some (blockNumber rc))
                   "Vote successfully recorded on blockchain")
          else ret (rejected "Blockchain transaction failed").

Definition cast_vote_on_blockchain (voter_hash_ party_id_ : string) : M World cast_result :=
  log SubmitBegin ;;;
  r <- try_except
         (cast_vote_body voter_hash_ party_id_)
         (fun e => simulated voter_hash_ party_id_
                     ("Vote recorded (simulated due to blockchain error: "
                      +:+ exn_str e +:+ ")")) ;;
  log (SubmitEnd r) ;;;
  ret r.

(** [VoteRecord.objects.create(..., is_verified=...)]: the constructor
    draws the [id], assigns the fields, then assigns every keyword that
    names a property with [setattr]; only then would the row be inserted,
    the [UUIDField] holding the party identifier as a [UUID]. *)
Definition create_vote_record (voter_hash_ party_id_ tx_hash : string)
  : M World (option VoteRecord) :=
  try_except
    (blockchain_transaction_ <-
       db_read (fun d => head (filter (fun t => transaction_hash t = tx_hash)
                                      (transactions d))) ;;
     ts <- time_time ;;
     verified <- verify_vote_on_blockchain voter_hash_ (PyStr party_id_) tx_hash ;;
     pk <- uuid4 ;;
     vote_record <- lift (set_is_verified
                            (MkVoteRecord pk voter_hash_ (MkUUID party_id_) (int_of_time ts)
                                          blockchain_transaction_ None 0)
                            verified) ;;
     created <- time_time ;;
     db_write "blockchain_voterecord"
       (modify (fun d =>
          set_vote_records
            (vote_records d ++
             [MkVoteRecord (record_pk vote_record) (voter_hash vote_record)
                (record_party_id vote_record) (vote_timestamp vote_record)
                (blockchain_transaction vote_record) (merkle_proof vote_record)
                created]) d)) ;;;
     ret (Some vote_record))
    (fun _ => ret None).

(** Python numbers: [integrity_percentage] is the int [100] or [0], or the
    float produced by true division. *)
Inductive number :=
  | PyInt (z : Z)
  | PyFloat (f : float).

(** Conversion of a count to a float, exact below [2^53]. *)
Definition float_of_Z (z : Z) : float := PrimFloat.of_uint63 (Uint63.of_Z z).

(** [x > k] and [x >= k] against an int literal [k]. *)
Definition number_gt (x : number) (k : Z) : bool :=
  match x with
  | PyInt z => k <? z
  | PyFloat f => PrimFloat.ltb (float_of_Z k) f
  end.

Definition number_ge (x : number) (k : Z) : bool :=
  match x with
  | PyInt z => k <=? z
  | PyFloat f => PrimFloat.leb (float_of_Z k) f
  end.

(** The dictionary [audit_vote_integrity] returns. *)
Record audit_report := AuditReport {
  total_records : Z;
  verified_count : Z;
  failed_count : Z;
  integrity_percentage : number;
  audit_status : string;
  audit_timestamp : option Z;
  audit_message : option string;
}.

(** The [for record in vote_records] loop, with the two counters. *)
Fixpoint audit_loop (records : list VoteRecord) (verified_count_ failed_count_ : Z)
  : M World (Z * Z) :=
  match records with
  | [] => ret (verified_count_, failed_count_)
  | record :: rest =>
      match blockchain_transaction record with
      | Some t =>
          ok <- verify_vote_on_blockchain (voter_hash record)
                  (PyUUID (record_party_id record)) (transaction_hash t) ;;
          if ok then
            flagged <- lift (is_verified record) ;;
            (if negb flagged then
               record' <- lift (set_is_verified record true) ;;
               db_write "blockchain_voterecord" (VoteRecord_save record')
             else ret tt) ;;;
            audit_loop rest (verified_count_ + 1) failed_count_
          else audit_loop rest verified_count_ (failed_count_ + 1)
      | None => audit_loop rest verified_count_ failed_count_
      end
  end.

Definition audit_vote_integrity : M World audit_report :=
  try_except
    (vote_records_ <- db_read vote_records ;;
     counts <- audit_loop vote_records_ 0 0 ;;
     let total := Z.of_nat (length vote_records_) in
     let pct := if 0 <? total
                then PyFloat (PrimFloat.mul
                                (PrimFloat.div (float_of_Z counts.1) (float_of_Z total))
                                (float_of_Z 100))
                else PyInt 100 in
     ts <- time_time ;;
     ret (AuditReport total counts.1 counts.2 pct
            (if number_gt pct 95 then "success" else "warning")
            (Some (int_of_time ts)) None))
    (fun e => ret (AuditReport 0 0 0 (PyInt 0) "error" None (Some (exn_str e)))).

End Client.
End Ledger.

(** ** blockchain/management/commands/blockchain_ops.py *)

Module Ops.
Import Ledger.

Inductive band := Excellent | Acceptable | Poor.

(** The three-way test at the end of [Command.audit_integrity]. *)
Definition audit_integrity_band (audit_results : audit_report) : band :=
  if number_ge (integrity_percentage audit_results) 95 then Excellent
  else if number_ge (integrity_percentage audit_results) 80 then Acceptable
  else Poor.

End Ops.

(** ** voting/views.py: [CastVoteView] *)

Module Views.
Import Models Ledger.
Local Open Scope Z_scope.
Local Open Scope py_scope.

(** The request body as [json.loads] sees it: not JSON at all, JSON that is
    not an object, or an object with or without a [party_id] string. *)
Inductive json_body :=
  | BadJson
  | JsonNotObject
  | JsonObject (party_id_ : option string).

Record HttpRequest := MkRequest {
  body : json_body;
  HTTP_X_FORWARDED_FOR : option string;
  REMOTE_ADDR : option string;
}.

Record JsonResponse := MkResponse {
  response_success : bool;
  response_message : string;
  response_vote_id : option string;
  response_blockchain_hash : option string;
  response_timestamp : option Z;
  response_party_name : option string;
}.

Definition failed (m : string) : JsonResponse := MkResponse false m None None None None.

(** [json.loads(request.body)] followed by [data.get('party_id')] *)
Definition read_party_id (b : json_body) : M World (option string) :=
  match b with
  | BadJson => raise (Exn JSONDecodeError "Expecting value")
  | JsonNotObject => raise (Exn AttributeError "object has no attribute 'get'")
  | JsonObject p => ret p
  end.

Definition get_client_ip (request : HttpRequest) : option string :=
  match HTTP_X_FORWARDED_FOR request with
  | Some x => if truthy x then Some (split_head ","%char x) else REMOTE_ADDR request
  | None => REMOTE_ADDR request
  end.

(** [Voter.objects.get(email=e, is_active=True)] *)
Definition Voter_get (e : string) : M World Voter :=
  found <- db_read (fun d => filter (fun v => email v = e /\ voter_is_active v = true)
                                    (voters d)) ;;
  match found with
  | [] => raise (Exn VoterDoesNotExist "Voter matching query does not exist.")
  | [v] => ret v
  | _ => raise (Exn MultipleObjectsReturned "get() returned more than one Voter")
  end.

(** [PoliticalParty.objects.get(party_id=p, is_active=True)] *)
Definition PoliticalParty_get (p : string) : M World PoliticalParty :=
  found <- db_read (fun d => filter (fun x => party_id x = p /\ party_is_active x = true)
                                    (parties d)) ;;
  match found with
  | [] => raise (Exn PoliticalPartyDoesNotExist
                   "PoliticalParty matching query does not exist.")
  | [x] => ret x
  | _ => raise (Exn MultipleObjectsReturned
                  "get() returned more than one PoliticalParty")
  end.

Definition session_get (k : string) : M World (option string) :=
  gets (fun w => session w !! k).

Definition session_pop (k : string) : M World unit :=
  modify (fun w => with_session (delete k (session w)) w).

Definition mark_voted (v : Voter) : Voter :=
  MkVoter (voter_pk v) (full_name v) (email v) (aadhaar_number v) (voter_is_active v) true.

Section View.
Context {platform : Platform}.
(** The module-level [blockchain_client]; [None] when it could not be built. *)
Variable blockchain_client : option BlockchainClient.

Definition the_client : M World BlockchainClient :=
  match blockchain_client with
  | Some c => ret c
  | None => raise (Exn AttributeError "'NoneType' object has no attribute")
  end.

(** The block under [with transaction.atomic()]. *)
Definition cast_and_commit (request : HttpRequest) (voter_ : Voter)
    (party : PoliticalParty) (voter_hash_ : string) : M World JsonResponse :=
  client <- the_client ;;
  blockchain_result <- cast_vote_on_blockchain client voter_hash_ (party_id party) ;;
  if negb (success blockchain_result) then
    ret (failed ("Blockchain vote failed: " +:+ message blockchain_result))
  else
    pk <- uuid4 ;;
    voted <- time_time ;;
    vote <- db_write "voting_vote"
              (Vote_insert (MkVote pk (voter_pk voter_) (party_pk party)
                              (result_transaction_hash blockchain_result)
                              (result_block_number blockchain_result)
                              voted true (get_client_ip request))) ;;
    time_time ;;;                       (* voter.voted_at = timezone.now() *)
    time_time ;;;                       (* updated_at, auto_now=True *)
    db_write "voting_voter" (Voter_save (mark_voted voter_)) ;;;
    create_vote_record client voter_hash_ (party_id party)
      (default "" (result_transaction_hash blockchain_result)) ;;;
    session_pop "verified_voter_email" ;;;
    session_pop "verification_timestamp" ;;;
    ret (MkResponse true "Vote cast successfully!" (Some (vote_pk vote))
           (result_transaction_hash blockchain_result) (Some (voted_at vote))
           (Some (party_name party))).

(** [CastVoteView.post] *)
Definition post (request : HttpRequest) : M World JsonResponse :=
  try_except
    (party_id_ <- read_party_id (body request) ;;
     voter_email <- session_get "verified_voter_email" ;;
     match party_id_ with
     | None => ret (failed "Party ID is required")
     | Some pid =>
     if negb (truthy pid) then ret (failed "Party ID is required") else
     match voter_email with
     | None => ret (failed "Voter not verified. Please complete verification first.")
     | Some e =>
     if negb (truthy e)
     then ret (failed "Voter not verified. Please complete verification first.") else
     found <- try_except_on VoterDoesNotExist
                (try_except_on PoliticalPartyDoesNotExist
                   (voter_ <- Voter_get e ;;
                    party <- PoliticalParty_get pid ;;
                    ret (inr (voter_, party)))
                   (ret (inl (failed "Invalid party selection"))))
                (ret (inl (failed "Voter not found"))) ;;
     match found with
     | inl early => ret early
     | inr (voter_, party) =>
     voted_before <- db_read (fun d => negb (bool_decide (votes_of (voter_pk voter_) d = []))) ;;
     if voted_before then
       ret (failed "You have already cast your vote. Multiple voting is not allowed.")
     else
     client <- the_client ;;
     let voter_hash_ :=
       generate_voter_hash client (email voter_) (aadhaar_number voter_) (voter_pk voter_) in
     on_chain <- has_voter_voted client voter_hash_ ;;
     if on_chain then
       ret (failed "Vote already recorded on blockchain. Duplicate voting detected.")
     else
     now_start <- time_time ;;
     now_end <- time_time ;;
     active_session <-
       db_read (fun d => head (filter (fun s => session_is_active s = true
                                                /\ start_time s <= now_start
                                                /\ now_end <= end_time s)
                                      (voting_sessions d))) ;;
     match active_session with
     | None => ret (failed "No active voting session found")
     | Some _ => atomic (cast_and_commit request voter_ party voter_hash_)
     end
     end
     end
     end)
    (fun e =>
       if bool_decide (exn_cls e = JSONDecodeError) then ret (failed "Invalid JSON data")
       else ret (failed "An error occurred while casting your vote. Please try again.")).

End View.
End Views.

(** ** voting/emailjs_service.py: resending and the status query *)

Module EmailJSRest.
Import EmailJS.
Local Open Scope Z_scope.
Local Open Scope py_scope.

(** [resend_verification_email]: the old code is cleared first, then a new
    one is sent; [voter_name] defaults to the empty string. *)
Definition resend_verification_email (self : EmailJSService) (random_code : string)
    (email voter_name : string) : M Cache response :=
  clear_verification_code email ;;;
  send_verification_email self random_code email (Some voter_name) None.

(** The dictionary [get_verification_status] returns.  The clock of the
    cache counts whole seconds, so [int(remaining_time.total_seconds())] is
    the difference itself. *)
Record verification_status := VerificationStatus {
  has_pending_verification : bool;
  status_remaining_attempts : Z;
  status_expiry_minutes : option Z;
  remaining_time_seconds : option Z;
  status_created_at : option Z;
}.

Definition no_pending (self : EmailJSService) : verification_status :=
  VerificationStatus false (max_attempts self) (Some (code_expiry_minutes self)) None None.

Definition get_verification_status (self : EmailJSService) (email : string)
  : M Cache verification_status :=
  try_except
    (verification_data <- get_verification_data email ;;
     match verification_data with
     | None => ret (no_pending self)
     | Some vd =>
         t <- gets now ;;
         let expiry_time := created_at vd + code_expiry_minutes self * 60 in
         let remaining_time := expiry_time - t in
         ret (VerificationStatus true (max_attempts self - attempts vd) None
                (Some (Z.max 0 remaining_time)) (Some (created_at vd)))
     end)
    (fun _ => ret (no_pending self)).

End EmailJSRest.

(** ** blockchain/blockchain_client.py: the read-only queries *)

Module LedgerReads.
Import Models Ledger.
Local Open Scope Z_scope.
Local Open Scope py_scope.

(** The answers of the remaining contract and web3 calls.  These calls are
    not among [lib_call] and leave no event. *)
Record Reads := MkReads {
  getVoteCount : string -> result Z;
  getTotalVotes : result Z;
  is_connected : result bool;
  from_wei_gwei : Z -> result string;
}.

Record network_info := NetworkInfo {
  info_chain_id : Z;
  info_latest_block : Z;
  info_gas_price : Z;
  info_gas_price_gwei : string;
  info_is_connected : bool;
}.

(** The dictionary [verify_blockchain_integrity] returns; [network_info]
    is absent, or the dictionary of [get_network_info], which is empty
    ([None]) when that call failed. *)
Record integrity_report := IntegrityReport {
  integrity_status : string;
  integrity_message : option string;
  integrity_score : Z;
  integrity_network_info : option (option network_info);
  integrity_timestamp : option Z;
}.

Section Reads.
Variable self : BlockchainClient.
Variable reads : Reads.

Definition get_vote_count (party_id_ : string) : M World Z :=
  if negb (contract self) then ret 0
  else try_except (lift (getVoteCount reads party_id_)) (fun _ => ret 0).

Definition get_total_votes : M World Z :=
  if negb (contract self) then ret 0
  else try_except (lift (getTotalVotes reads)) (fun _ => ret 0).

(** [get_network_info]: the empty dictionary is [None]. *)
Definition get_network_info : M World (option network_info) :=
  try_except
    (chain <- call ChainId (eth_chain_id (w3 self)) ;;
     latest_block <- call GetBlockLatest (eth_get_block_latest (w3 self)) ;;
     gas_price_ <- call GasPrice (eth_gas_price (w3 self)) ;;
     gwei <- lift (from_wei_gwei reads gas_price_) ;;
     connected <- lift (is_connected reads) ;;
     ret (Some (NetworkInfo chain latest_block gas_price_ gwei connected)))
    (fun _ => ret None).

Definition verify_blockchain_integrity : M World integrity_report :=
  try_except
    (connected <- test_connection self ;;
     if negb connected then
       ret (IntegrityReport "failed" (Some "Blockchain connection failed") 0 None None)
     else
       info <- get_network_info ;;
       let score := match info with
                    | Some i => if info_is_connected i then 100 else 0
                    | None => 0
                    end in
       ts <- time_time ;;
       ret (IntegrityReport (if 0 <? score then "success" else "failed") None score
              (Some info) (Some (int_of_time ts))))
    (fun e => ret (IntegrityReport "error" (Some (exn_str e)) 0 None None)).

End Reads.
End LedgerReads.

(** * Properties *)

(** Case analysis on the innermost scrutinee of the goal: one step of
    symbolic execution of a monadic program. *)
Ltac branch :=
  match goal with
  | |- context [match ?x with _ => _ end] =>
      lazymatch x with
      | context [match _ with _ => _ end] => fail
      | _ => destruct x eqn:?
      end
  end.

(** Solves [e1 :: ... :: en :: t = ?evs ++ t] by reading off [?evs]; a
    segment [l ++ ...] of the left side is taken over as it is. *)
Ltac prefix :=
  lazymatch goal with
  | |- ?t = ?evs ++ ?t => unify evs (@nil Ledger.event); reflexivity
  | |- ?e :: ?rest = ?evs ++ ?t =>
      let evs' := fresh "evs" in
      evar (evs' : list Ledger.event);
      unify evs (e :: evs'); subst evs'; cbn [app]; f_equal; prefix
  | |- ?l ++ ?rest = ?evs ++ ?t =>
      let evs' := fresh "evs" in
      evar (evs' : list Ledger.event);
      unify evs (l ++ evs'); subst evs';
      etransitivity; [|apply app_assoc]; f_equal; prefix
  end.

Ltac fields_hyps :=
  cbn [Ledger.db Ledger.session Ledger.trace Ledger.clock Ledger.ticks
       Ledger.uuid_source Ledger.uuids_drawn Ledger.connection
       Ledger.in_atomic_block Ledger.needs_rollback
       Ledger.with_db Ledger.with_session Ledger.with_connection fst snd] in *.

(** Uses what is already known about the connection. *)
Ltac known :=
  repeat match goal with
         | H : Ledger.needs_rollback ?c = _ |- context [Ledger.needs_rollback ?c] => rewrite H
         | H : Ledger.in_atomic_block ?c = _ |- context [Ledger.in_atomic_block ?c] => rewrite H
         end.

(** Comparisons of exception classes that are known. *)
Ltac classes :=
  repeat match goal with
         | |- context [bool_decide (@eq exn_class ?a ?b)] =>
             let v := eval vm_compute in (bool_decide (a = b)) in
             lazymatch v with
             | true => change (bool_decide (a = b)) with true
             | false => change (bool_decide (a = b)) with false
             end
         end.

(** Projections of an explicit world. *)
Ltac fields :=
  cbn [Ledger.db Ledger.session Ledger.trace Ledger.clock Ledger.ticks
       Ledger.uuid_source Ledger.uuids_drawn Ledger.connection
       Ledger.in_atomic_block Ledger.needs_rollback
       Ledger.with_db Ledger.with_session Ledger.with_connection fst snd].

(** ** The challenge service *)

Module EmailJSFacts.
Import EmailJS.
Local Open Scope Z_scope.

(** One verification at clock reading [t] against a backend in state [f]. *)
Definition verify_at (self : EmailJSService) (email : string) (f : cache_op -> bool)
    (t : Z) (provided : string) (c : Cache) : result response * Cache :=
  verify_code self email provided (at_time t f c).

Definition error_code_of (r : result response * Cache) : option string :=
  match r.1 with
  | Returns x => error_code x
  | Raises _ => Some "<raised>"
  end.

Definition remaining_of (r : result response * Cache) : option Z :=
  match r.1 with
  | Returns x => remaining_attempts x
  | Raises _ => None
  end.

(** The scenario of the specification: identity H1 holds code 482913 and
    sends 482910 three times, then the right code, then once more. *)
Definition h1_service : EmailJSService := init "service" "template" "public" "private".
Definition h1_issued : Cache :=
  (store_verification_code h1_service "H1" "482913" (MkCache ∅ 0 healthy)).2.
Definition h1_first := verify_at h1_service "H1" healthy 10 "482910" h1_issued.
Definition h1_second := verify_at h1_service "H1" healthy 20 "482910" h1_first.2.
Definition h1_third := verify_at h1_service "H1" healthy 30 "482910" h1_second.2.
Definition h1_fourth := verify_at h1_service "H1" healthy 40 "482913" h1_third.2.
Definition h1_fifth := verify_at h1_service "H1" healthy 50 "482913" h1_fourth.2.

Definition invalid_code (remaining : Z) : response :=
  Response false None
    (Some ("Invalid verification code. " +:+ pretty remaining +:+ " attempts remaining"))
    (Some "INVALID_CODE") (Some remaining) None.

Definition code_not_found : response :=
  failure "No verification code found or code has expired" "CODE_NOT_FOUND".

Definition max_attempts_exceeded : response :=
  failure "Maximum verification attempts exceeded" "MAX_ATTEMPTS_EXCEEDED".

Definition system_error : response :=
  failure "Verification failed due to system error" "SYSTEM_ERROR".

Definition verified : response :=
  Response true (Some "Email verified successfully") None None None None.

Definition bump (vd : verification_data) : verification_data :=
  VerificationData (code vd) (created_at vd) (attempts vd + 1).

Definition ttl (self : EmailJSService) : Z := code_expiry_minutes self * 60.

Section OneCall.
Variable self : EmailJSService.
Variable email : string.
Variable c : Cache.
Hypothesis up : forall op, faulty c op = false.

Lemma get_verification_data_live e :
  entries c !! cache_key email = Some e -> now c < expires_at e ->
  get_verification_data email c = (Returns (Some (value e)), c).
Proof.
  intros Hl Ht. unfold get_verification_data, try_except, cache_get.
  rewrite up, Hl. apply Z.ltb_lt in Ht. by rewrite Ht.
Qed.

Lemma get_verification_data_gone :
  (forall e, entries c !! cache_key email = Some e -> expires_at e <= now c) ->
  get_verification_data email c = (Returns None, c).
Proof.
  intros Hg. unfold get_verification_data, try_except, cache_get. rewrite up.
  destruct (entries c !! cache_key email) as [e|] eqn:Hl; [|done].
  specialize (Hg e eq_refl). apply Z.ltb_ge in Hg. by rewrite Hg.
Qed.

Lemma verify_code_absent provided :
  (forall e, entries c !! cache_key email = Some e -> expires_at e <= now c) ->
  verify_code self email provided c = (Returns code_not_found, c).
Proof.
  intros Hg. unfold verify_code, try_except at 1, bind.
  by rewrite get_verification_data_gone.
Qed.

Lemma verify_code_mismatch e provided :
  entries c !! cache_key email = Some e -> now c < expires_at e ->
  attempts (value e) < max_attempts self -> code (value e) <> provided ->
  verify_code self email provided c =
    (Returns (invalid_code (max_attempts self - (attempts (value e) + 1))),
     MkCache (<[cache_key email := CacheEntry (bump (value e)) (now c + ttl self)]> (entries c))
             (now c) (faulty c)).
Proof.
  intros Hl Ht Ha Hc. unfold verify_code, try_except at 1, bind.
  rewrite (get_verification_data_live e) by done.
  apply Z.leb_gt in Ha. rewrite Ha. unfold cache_set. rewrite up. cbn.
  by rewrite bool_decide_eq_false_2.
Qed.

Lemma verify_code_match e :
  entries c !! cache_key email = Some e -> now c < expires_at e ->
  attempts (value e) < max_attempts self ->
  verify_code self email (code (value e)) c =
    (Returns verified, MkCache (delete (cache_key email) (entries c)) (now c) (faulty c)).
Proof.
  intros Hl Ht Ha. unfold verify_code, try_except at 1, bind.
  rewrite (get_verification_data_live e) by done.
  apply Z.leb_gt in Ha. rewrite Ha. unfold cache_set. rewrite up. cbn.
  rewrite bool_decide_eq_true_2 by done.
  unfold clear_verification_code, try_except, bind, cache_delete. cbn. rewrite up. cbn.
  by rewrite delete_insert_eq.
Qed.

Lemma verify_code_exhausted e provided :
  entries c !! cache_key email = Some e -> now c < expires_at e ->
  max_attempts self <= attempts (value e) ->
  verify_code self email provided c =
    (Returns max_attempts_exceeded,
     MkCache (delete (cache_key email) (entries c)) (now c) (faulty c)).
Proof.
  intros Hl Ht Ha. unfold verify_code, try_except at 1, bind.
  rewrite (get_verification_data_live e) by done.
  apply Z.leb_le in Ha. rewrite Ha.
  unfold clear_verification_code, try_except, bind, cache_delete. by rewrite up.
Qed.

End OneCall.

(** A backend on which exactly the operation [bad] raises. *)
Definition only (bad : cache_op) : cache_op -> bool :=
  fun op => match bad, op with
            | OpGet, OpGet | OpSet, OpSet | OpDelete, OpDelete => true
            | _, _ => false
            end.

(** C4, as the code has it: with three attempts allowed, three wrong codes
    are answered INVALID_CODE with 2, 1 and 0 attempts remaining, each
    attempt being counted in the cache; the fourth call, whatever code it
    carries, is answered MAX_ATTEMPTS_EXCEEDED and purges the entry; only
    the fifth is answered CODE_NOT_FOUND. *)
Theorem verify_code_three_wrong_codes
    (self : EmailJSService) (email : string) (c : Cache) (e : cache_entry)
    (x1 x2 x3 x4 x5 : string) (t1 t2 t3 t4 t5 : Z) :
  max_attempts self = 3 ->
  entries c !! cache_key email = Some e ->
  attempts (value e) = 0 ->
  x1 <> code (value e) -> x2 <> code (value e) -> x3 <> code (value e) ->
  t1 < expires_at e -> t2 < t1 + ttl self -> t3 < t2 + ttl self -> t4 < t3 + ttl self ->
  let r1 := verify_at self email healthy t1 x1 c in
  let r2 := verify_at self email healthy t2 x2 r1.2 in
  let r3 := verify_at self email healthy t3 x3 r2.2 in
  let r4 := verify_at self email healthy t4 x4 r3.2 in
  let r5 := verify_at self email healthy t5 x5 r4.2 in
  r1.1 = Returns (invalid_code 2) /\
  entries r1.2 !! cache_key email = Some (CacheEntry (bump (value e)) (t1 + ttl self)) /\
  r2.1 = Returns (invalid_code 1) /\
  r3.1 = Returns (invalid_code 0) /\
  r4.1 = Returns max_attempts_exceeded /\
  r5.1 = Returns code_not_found.
Proof.
  intros Hmax He Ha0 H1 H2 H3 Ht1 Ht2 Ht3 Ht4. cbv zeta. unfold verify_at.
  erewrite (verify_code_mismatch self email (at_time t1 healthy c));
    [|done|exact He|done|cbn; lia|done].
  cbn [fst snd at_time entries now faulty].
  erewrite verify_code_mismatch;
    [|done|cbn; by rewrite lookup_insert_eq|cbn; lia|cbn; lia|done].
  cbn [fst snd at_time entries now faulty value expires_at bump attempts code created_at].
  rewrite insert_insert_eq.
  erewrite verify_code_mismatch;
    [|done|cbn; by rewrite lookup_insert_eq|cbn; lia|cbn; lia|done].
  cbn [fst snd at_time entries now faulty value expires_at bump attempts code created_at].
  rewrite insert_insert_eq.
  erewrite verify_code_exhausted;
    [|done|cbn; by rewrite lookup_insert_eq|cbn; lia|cbn; lia].
  cbn [fst snd at_time entries now faulty].
  rewrite verify_code_absent;
    [|done|cbn; intros e'; by rewrite lookup_delete_eq].
  rewrite Hmax, Ha0. cbn [fst snd]. rewrite lookup_insert_eq. done.
Qed.

Lemma verify_code_three_wrong_codes_witness :
  (verify_at h1_service "H1" healthy 10 "482910" h1_issued).1 = Returns (invalid_code 2)
  /\ h1_fifth.1 = Returns code_not_found.
Proof.
  pose proof (verify_code_three_wrong_codes h1_service "H1" h1_issued
                (CacheEntry (VerificationData "482913" 0 0) 900)
                "482910" "482910" "482910" "482913" "482913" 10 20 30 40 50) as W.
  cbv zeta in W.
  destruct W as (W1 & _ & _ & _ & _ & W5);
    [reflexivity | vm_compute; reflexivity | reflexivity | discriminate | discriminate
    | discriminate | reflexivity | reflexivity | reflexivity | reflexivity |].
  split; [exact W1 | exact W5].
Defined.

(** The scenario of the specification, run on the code: the third wrong
    code is still answered INVALID_CODE (with 0 remaining), and the fourth
    call is the one answered MAX_ATTEMPTS_EXCEEDED, not CODE_NOT_FOUND. *)
Lemma h1_scenario_actual :
  map error_code_of [h1_first; h1_second; h1_third; h1_fourth; h1_fifth]
    = [Some "INVALID_CODE"; Some "INVALID_CODE"; Some "INVALID_CODE";
       Some "MAX_ATTEMPTS_EXCEEDED"; Some "CODE_NOT_FOUND"]
  /\ map remaining_of [h1_first; h1_second; h1_third] = [Some 2; Some 1; Some 0]
  /\ error_code_of h1_third <> Some "MAX_ATTEMPTS_EXCEEDED"
  /\ error_code_of h1_fourth <> Some "CODE_NOT_FOUND".
Proof. vm_compute. repeat split; discriminate. Qed.

Definition storage_error : response :=
  failure "Failed to store verification code" "STORAGE_ERROR".

(** C7, as the code has it: a backend failure while issuing is answered
    STORAGE_ERROR, and a failure to persist the attempt counter while
    verifying is answered SYSTEM_ERROR (even for the right code); a failure
    of the lookup is caught inside [get_verification_data] and answered
    CODE_NOT_FOUND, with the cache left as it was. *)
Theorem storage_failure_outcomes
    (self : EmailJSService) (email provided random_code : string)
    (voter_name : option string) (c : Cache) :
  (is_configured self = true -> faulty c OpSet = true ->
     send_verification_email self random_code email voter_name None c
       = (Returns storage_error, c))
  /\ (forall e, faulty c OpGet = false -> faulty c OpSet = true ->
        entries c !! cache_key email = Some e -> now c < expires_at e ->
        attempts (value e) < max_attempts self ->
        verify_code self email provided c = (Returns system_error, c)
        /\ error_code system_error <> error_code code_not_found)
  /\ (faulty c OpGet = true ->
        verify_code self email provided c = (Returns code_not_found, c)).
Proof.
  split; [|split].
  - intros Hc Hs.
    unfold send_verification_email, try_except, bind, store_verification_code,
      try_except, bind, gets, cache_set.
    rewrite Hc. cbn. by rewrite Hs.
  - intros e Hg Hs Hl Ht Ha. split; [|discriminate].
    unfold verify_code, try_except at 1, bind, get_verification_data, try_except, cache_get.
    rewrite Hg, Hl. apply Z.ltb_lt in Ht. rewrite Ht.
    apply Z.leb_gt in Ha. rewrite Ha. unfold cache_set. by rewrite Hs.
  - intros Hg.
    unfold verify_code, try_except at 1, bind, get_verification_data, try_except, cache_get.
    by rewrite Hg.
Qed.

Lemma storage_failure_outcomes_witness :
  send_verification_email h1_service "482913" "H1" None None (MkCache ∅ 0 (only OpSet))
    = (Returns storage_error, MkCache ∅ 0 (only OpSet))
  /\ verify_code h1_service "H1" "482913" (at_time 10 (only OpSet) h1_issued)
      = (Returns system_error, at_time 10 (only OpSet) h1_issued)
  /\ verify_code h1_service "H1" "482913" (at_time 10 (only OpGet) h1_issued)
      = (Returns code_not_found, at_time 10 (only OpGet) h1_issued).
Proof.
  split; [|split].
  - apply (storage_failure_outcomes h1_service "H1" "482913" "482913" None
             (MkCache ∅ 0 (only OpSet))); reflexivity.
  - eapply (storage_failure_outcomes h1_service "H1" "482913" "482913" None
              (at_time 10 (only OpSet) h1_issued));
      [reflexivity | reflexivity | vm_compute; reflexivity | reflexivity | reflexivity].
  - apply (storage_failure_outcomes h1_service "H1" "482913" "482913" None
             (at_time 10 (only OpGet) h1_issued)); reflexivity.
Defined.

(** On the code, a lookup that raises while the right code is presented for
    a live challenge is answered CODE_NOT_FOUND, the answer given when no
    challenge was ever issued. *)
Lemma lookup_failure_reported_as_code_not_found :
  (verify_at h1_service "H1" (only OpGet) 10 "482913" h1_issued).1 = Returns code_not_found
  /\ (verify_at h1_service "H1" healthy 10 "482913" (MkCache ∅ 0 healthy)).1
     = Returns code_not_found
  /\ error_code code_not_found = Some "CODE_NOT_FOUND".
Proof. vm_compute. done. Qed.

End EmailJSFacts.

(** ** The ledger client *)

Module LedgerFacts.
Import Models Ledger.
Local Open Scope Z_scope.

(** A platform to run examples on.  The digest is a stand-in with the
    shape of a real one: sixty-four hexadecimal digits, the hexadecimal
    rendering of the first thirty-two bytes of the input. *)
Definition hex_digit (n : N) : ascii :=
  ascii_of_N (if (n <? 10)%N then 48 + n else 87 + n).

Fixpoint hex_of_string (s : string) : string :=
  match s with
  | EmptyString => EmptyString
  | String c rest =>
      String (hex_digit (N_of_ascii c / 16))
             (String (hex_digit (N_of_ascii c mod 16)) (hex_of_string rest))
  end.

Fixpoint pad_to (n : nat) (s : string) : string :=
  match n with
  | O => EmptyString
  | S n' =>
      match s with
      | EmptyString => String "0" (pad_to n' EmptyString)
      | String c rest => String c (pad_to n' rest)
      end
  end.

Definition demo_digest (s : string) : string := pad_to 64 (hex_of_string s).

Definition demo_platform : Platform :=
  {| sha256_hexdigest := demo_digest; str_of_time := fun t => pretty t |}.

(** Events that are calls into web3. *)
Definition is_lib_call (ev : event) : Prop :=
  match ev with
  | LibCall _ _ => True
  | _ => False
  end.

(** Events of a local recording: the chain id is asked for, rows are
    written. *)
Definition recording_event (ev : event) : Prop :=
  match ev with
  | LibCall ChainId _ | DbWrite _ => True
  | _ => False
  end.

Definition not_submit (ev : event) : Prop :=
  match ev with
  | SubmitBegin | SubmitEnd _ => False
  | _ => True
  end.

Lemma recording_not_submit l : Forall recording_event l -> Forall not_submit l.
Proof. induction 1 as [|ev l Hev _ IH]; constructor; [by destruct ev|done]. Qed.

Section Facts.
Context {platform : Platform}.
Variable self : BlockchainClient.

Ltac run :=
  unfold has_voter_voted, test_connection, call, try_except, bind, log, modify, ret, raise.

Lemma has_voter_voted_total voter_hash_ w :
  exists b evs,
    has_voter_voted self voter_hash_ w
      = (Returns b, MkWorld (db w) (session w) (evs ++ trace w) (clock w) (ticks w)
                            (uuid_source w) (uuids_drawn w) (connection w))
    /\ Forall is_lib_call evs.
Proof.
  run. destruct (contract self); cbn.
  - destruct (to_bytes (w3 self) voter_hash_) as [b|e]; cbn.
    + destruct (hasVoted (w3 self) b) as [v|e]; cbn.
      * exists v, [LibCall HasVoted false; LibCall ToBytes false].
        split; [done|repeat constructor].
      * exists false, [LibCall HasVoted true; LibCall ToBytes false].
        split; [done|repeat constructor].
    + exists false, [LibCall ToBytes true]. split; [done|repeat constructor].
  - exists false, []. split; [by destruct w|constructor].
Qed.

(** The local recording never raises, touches neither the session nor the
    vote and voter tables, and leaves the connection inside or outside its
    [atomic] block as it found it. *)
Lemma record_blockchain_transaction_spec tx_hash tx_type rc metadata w :
  exists o w' evs,
    record_blockchain_transaction self tx_hash tx_type rc metadata w = (Returns o, w')
    /\ session w' = session w
    /\ votes (db w') = votes (db w) /\ voters (db w') = voters (db w)
    /\ in_atomic_block (connection w') = in_atomic_block (connection w)
    /\ trace w' = evs ++ trace w /\ Forall recording_event evs.
Proof.
  cbv beta iota zeta delta [record_blockchain_transaction BlockchainNetwork_get_or_create
    BlockchainNetwork_get atomic db_read db_write db_exec validate_no_broken_transaction
    mark_for_rollback_on_error call try_except try_except_on bind log modify gets ret raise
    time_time uuid4 Network_insert Transaction_insert].
  fields.
  repeat (first [progress classes | branch]; fields; cbn [exn_cls andb orb]).
  all: eexists _, _, _; (split; [reflexivity|]); fields.
  all: do 4 (split; [done|]).
  all: split; [prefix|repeat constructor].
Qed.

(** The dictionary of a simulated submission made from world [w]: the
    placeholder identifier digests the voter hash, the party and the clock
    reading taken at that moment. *)
Definition placeholder_result (voter_hash_ party_id_ : string) (w : World) (msg : string)
  : cast_result :=
  CastResult true
    (Some ("0x" +:+ sha256_hexdigest
                      (voter_hash_ +:+ party_id_ +:+ str_of_time (clock w (ticks w)))))
    (Some (int_of_time (clock w (S (ticks w))) `mod` 1000000))
    msg.

(** The calls of [cast_vote_on_blockchain] that no inner [try] guards. *)
Definition late_calls : list lib_call :=
  [GasPrice; GetTransactionCount; BuildTransaction; SignTransaction;
   SendRawTransaction; WaitForTransactionReceipt].

Ltac unfold_cast :=
  cbv beta iota delta [cast_vote_on_blockchain cast_vote_body simulated rejected
    test_connection has_voter_voted account_address
    call try_except bind log modify ret raise time_time placeholder_result];
  fields.

(** One step of the run: the local recording is taken as a whole. *)
Ltac cast_step :=
  match goal with
  | |- context [record_blockchain_transaction self ?h ?ty ?r ?md ?x] =>
      let Hs := fresh "Hrec_session" in
      let Hv := fresh "Hrec_votes" in
      let Hw := fresh "Hrec_voters" in
      let Ha := fresh "Hrec_atomic" in
      let Ht := fresh "Hrec_trace" in
      let He := fresh "Hrec_events" in
      destruct (record_blockchain_transaction_spec h ty r md x)
        as (? & ? & ? & -> & Hs & Hv & Hw & Ha & Ht & He)
  | _ => branch
  end.

Ltac branches :=
  repeat (cast_step; fields).

Lemma cast_vote_on_blockchain_spec voter_hash_ party_id_ w :
  exists r w',
    cast_vote_on_blockchain self voter_hash_ party_id_ w = (Returns r, w')
    /\ session w' = session w
    /\ votes (db w') = votes (db w) /\ voters (db w') = voters (db w)
    /\ in_atomic_block (connection w') = in_atomic_block (connection w)
    /\ (exists evs, trace w' = SubmitEnd r :: evs ++ SubmitBegin :: trace w
                    /\ Forall not_submit evs)
    /\ (success r = false -> db w' = db w /\ connection w' = connection w).
Proof.
  unfold_cast. branches.
  all: eexists _, _; (split; [reflexivity|]); fields; fields_hyps; cbn [success].
  all: do 4 (split; [done|]).
  all: split; [|done].
  all: eexists; split;
         [ f_equal; rewrite ?Hrec_trace; prefix
         | first [ apply Forall_app; split; [by apply recording_not_submit|repeat constructor]
                 | repeat constructor ] ].
Qed.

Lemma cast_vote_returns voter_hash_ party_id_ w :
  exists r, (cast_vote_on_blockchain self voter_hash_ party_id_ w).1 = Returns r.
Proof.
  destruct (cast_vote_on_blockchain_spec voter_hash_ party_id_ w) as (r & w' & E & _).
  exists r. by rewrite E.
Qed.

Lemma cast_vote_probe_fails voter_hash_ party_id_ w e :
  contract self = true -> eth_get_block_latest (w3 self) = Raises e ->
  (cast_vote_on_blockchain self voter_hash_ party_id_ w).1
    = Returns (placeholder_result voter_hash_ party_id_ w
                 "Vote recorded (simulated - connection failed)").
Proof. intros Hc Hp. unfold_cast. by rewrite Hc, Hp. Qed.

Lemma cast_vote_body_raises voter_hash_ party_id_ w e w1 :
  cast_vote_body self voter_hash_ party_id_ (log SubmitBegin w).2 = (Raises e, w1) ->
  (cast_vote_on_blockchain self voter_hash_ party_id_ w).1
    = Returns (placeholder_result voter_hash_ party_id_ w
                 ("Vote recorded (simulated due to blockchain error: "
                  +:+ exn_str e +:+ ")")).
Proof.
  unfold_cast. branches; intros [= <- <-]; reflexivity.
Qed.

Lemma cast_vote_late_raise voter_hash_ party_id_ w c evs :
  c ∈ late_calls ->
  trace (cast_vote_on_blockchain self voter_hash_ party_id_ w).2 = evs ++ trace w ->
  LibCall c true ∈ evs ->
  exists e,
    (cast_vote_on_blockchain self voter_hash_ party_id_ w).1
      = Returns (placeholder_result voter_hash_ party_id_ w
                   ("Vote recorded (simulated due to blockchain error: "
                    +:+ exn_str e +:+ ")")).
Proof.
  intros Hc. unfold_cast.
  branches; cbn [app]; fields_hyps; rewrite ?Hrec_trace; intros Htr Hev;
    try (eexists; reflexivity);
    exfalso;
    match type of Htr with
    | ?lhs = ?ev ++ ?t =>
        let l := fresh "l" in
        evar (l : list event);
        assert (lhs = l ++ t) as Hl by (subst l; prefix);
        pose proof (app_inv_tail _ _ _ (eq_trans (eq_sym Hl) Htr)) as Hevs;
        subst l; subst ev
    end;
    clear Htr Hl;
    repeat match goal with
           | H : _ ∈ _ :: _ |- _ => apply elem_of_cons in H as [H|H]
           | H : _ ∈ _ ++ _ |- _ => apply elem_of_app in H as [H|H]
           | H : _ ∈ [] |- _ => by apply elem_of_nil in H
           | H : LibCall _ _ = _ |- _ => try discriminate H; injection H as -> _
           | H : LibCall ?c ?r ∈ ?l, He : Forall recording_event ?l |- _ =>
               rewrite Forall_forall in He; specialize (He _ H); cbn in He
           end;
    try done;
    try (destruct c; try done);
    apply list_elem_of_In in Hc; cbn in Hc; intuition congruence.
Qed.

(** C2, as the code has it: [cast_vote_on_blockchain] always returns a
    dictionary; a failed connectivity probe, and a raise of any call that no
    inner [try] guards, give the successful simulated dictionary whose
    identifier digests voter hash, party and clock reading. *)
Theorem cast_vote_degrades voter_hash_ party_id_ w :
  (exists r, (cast_vote_on_blockchain self voter_hash_ party_id_ w).1 = Returns r)
  /\ (forall e, contract self = true -> eth_get_block_latest (w3 self) = Raises e ->
        (cast_vote_on_blockchain self voter_hash_ party_id_ w).1
          = Returns (placeholder_result voter_hash_ party_id_ w
                       "Vote recorded (simulated - connection failed)"))
  /\ (forall c evs, c ∈ late_calls ->
        trace (cast_vote_on_blockchain self voter_hash_ party_id_ w).2 = evs ++ trace w ->
        LibCall c true ∈ evs ->
        exists e,
          (cast_vote_on_blockchain self voter_hash_ party_id_ w).1
            = Returns (placeholder_result voter_hash_ party_id_ w
                         ("Vote recorded (simulated due to blockchain error: "
                          +:+ exn_str e +:+ ")")))
  /\ (forall e w1,
        cast_vote_body self voter_hash_ party_id_ (log SubmitBegin w).2 = (Raises e, w1) ->
        (cast_vote_on_blockchain self voter_hash_ party_id_ w).1
          = Returns (placeholder_result voter_hash_ party_id_ w
                       ("Vote recorded (simulated due to blockchain error: "
                        +:+ exn_str e +:+ ")"))).
Proof.
  split; [apply cast_vote_returns|].
  split; [intros e; apply cast_vote_probe_fails|].
  split; [intros c evs; apply cast_vote_late_raise|].
  intros e w1. apply cast_vote_body_raises.
Qed.

(** C9: [has_voter_voted] never raises, and answers [False] when no
    contract is loaded, when the hash cannot be converted and when the
    [hasVoted] call raises: the answer a genuine negative gives. *)
Theorem has_voter_voted_false_on_failure voter_hash_ w :
  (exists b, (has_voter_voted self voter_hash_ w).1 = Returns b)
  /\ (contract self = false -> has_voter_voted self voter_hash_ w = (Returns false, w))
  /\ (forall e, to_bytes (w3 self) voter_hash_ = Raises e ->
        (has_voter_voted self voter_hash_ w).1 = Returns false)
  /\ (forall b e, to_bytes (w3 self) voter_hash_ = Returns b ->
        hasVoted (w3 self) b = Raises e ->
        (has_voter_voted self voter_hash_ w).1 = Returns false)
  /\ (forall b, contract self = true -> to_bytes (w3 self) voter_hash_ = Returns b ->
        hasVoted (w3 self) b = Returns false ->
        (has_voter_voted self voter_hash_ w).1 = Returns false).
Proof.
  split.
  { destruct (has_voter_voted_total voter_hash_ w) as (b & evs & E & _).
    exists b. by rewrite E. }
  run. repeat split.
  - intros ->. done.
  - intros e ->. by destruct (contract self).
  - intros b e -> ->. by destruct (contract self).
  - intros b -> -> ->. done.
Qed.

(** C10: with no contract loaded the submission is simulated at once: the
    result is the successful placeholder dictionary, and between entry and
    return nothing is observed, neither the probe nor [hasVoted] nor
    [isVotingActive], whatever the ledger would have answered. *)
Theorem cast_vote_without_contract voter_hash_ party_id_ w :
  contract self = false ->
  let r := placeholder_result voter_hash_ party_id_ w
             "Vote recorded (simulated - blockchain not configured)" in
  cast_vote_on_blockchain self voter_hash_ party_id_ w
    = (Returns r,
       MkWorld (db w) (session w) (SubmitEnd r :: SubmitBegin :: trace w) (clock w)
               (S (S (ticks w))) (uuid_source w) (uuids_drawn w) (connection w))
  /\ success r = true.
Proof. intros Hc. unfold_cast. by rewrite Hc. Qed.

End Facts.

(** Ledgers for the examples: the probe, [hasVoted] and [isVotingActive]
    answer as given, every other call goes through, and the receipt carries
    the given status.  [Web3.to_bytes(hexstr=...)] accepts hexadecimal
    digits after an optional [0x] and raises on anything else. *)
Definition is_hex_digit (c : ascii) : bool :=
  let n := N_of_ascii c in
  ((48 <=? n) && (n <=? 57) || (97 <=? n) && (n <=? 102) || (65 <=? n) && (n <=? 70))%N.

Fixpoint all_hex (s : string) : bool :=
  match s with
  | EmptyString => true
  | String c rest => is_hex_digit c && all_hex rest
  end.

Definition remove_0x_prefix (s : string) : string :=
  match s with
  | String "0" (String "x" rest) | String "0" (String "X" rest) => rest
  | _ => s
  end.

Definition demo_to_bytes (h : string) : result string :=
  if all_hex (remove_0x_prefix h) then Returns h
  else Raises (Exn RuntimeFault "Non-hexadecimal digit found").

Definition demo_voter_hash : string :=
  "0x5d41402abc4b2a76b9719d911017c592a3f1c2d4e5f60718293a4b5c6d7e8f90".

Definition demo_tx_hash : string :=
  "0x9a1b2c3d4e5f60718293a4b5c6d7e8f90a1b2c3d4e5f60718293a4b5c6d7e8f9".

Definition demo_account : string := "0x90F8bf6A479f320ead074411a4B0e7944Ea8c9C1".

Definition demo_contract : string := "0xCfEB869F69431e42cdB54A4F4f105C19C080A601".

Definition demo_block_hash : string :=
  "0x3c2d1e0f9a8b7c6d5e4f3a2b1c0d9e8f7a6b5c4d3e2f1a0b9c8d7e6f5a4b3c2d".

Definition demo_receipt (status_ : Z) : receipt :=
  Receipt status_ (Some demo_account) (Some demo_contract) (Some 21000) (Some 1) 7
          (Some demo_block_hash).

Definition demo_node (probe : result Z) (voted active : result bool) (status_ : Z) : Node :=
  MkNode probe (Returns 1337) (Returns 1) (fun _ => Returns 0)
         demo_to_bytes (fun _ => voted) active
         (fun _ _ _ => Returns 21000) (fun _ _ _ => Returns "tx")
         (fun _ _ => Returns "signed") (fun _ => Returns demo_tx_hash)
         (fun _ => Returns (demo_receipt status_))
         (fun _ => Returns (demo_receipt status_))
         (fun _ => Returns []).

Definition demo_client (has_contract : bool) (n : Node) : BlockchainClient :=
  MkClient "http://127.0.0.1:8545"
           (Some "0x4f3edf983ac636a65a842ce7c78d9aa706d3b113bce9c46f30d7d21715b23b1d")
           (Some demo_contract) (Some demo_account) has_contract n "salt".

Definition empty_db : Database := MkDatabase [] [] [] [] [] [] [].

(** A request arrives outside any transaction. *)
Definition idle : Connection := MkConnection false false.

Definition demo_world (d : Database) : World :=
  MkWorld d ∅ [] (fun n => 1000000 * Z.of_nat n) 0 (fun n => "uuid-" +:+ pretty n) 0 idle.

Definition timeout_error : exn := Exn RuntimeFault "read timed out".

(** The node is unreachable. *)
Definition client_probe_down : BlockchainClient :=
  demo_client true (demo_node (Raises timeout_error) (Returns false) (Returns true) 1).

(** [isVotingActive] raises; the transaction then succeeds or fails. *)
Definition client_status_unknown (status_ : Z) : BlockchainClient :=
  demo_client true (demo_node (Returns 1) (Returns false) (Raises timeout_error) status_).

(** [hasVoted] raises. *)
Definition client_guard_down : BlockchainClient :=
  demo_client true (demo_node (Returns 1) (Raises timeout_error) (Returns true) 1).

(** No contract is loaded, and the ledger has the identity recorded. *)
Definition client_no_contract : BlockchainClient :=
  demo_client false (demo_node (Returns 1) (Returns true) (Returns true) 1).

Lemma cast_vote_degrades_witness :
  (cast_vote_on_blockchain (platform := demo_platform) client_probe_down
     demo_voter_hash "P1" (demo_world empty_db)).1
  = Returns (CastResult true
               (Some ("0x" +:+ demo_digest (demo_voter_hash +:+ "P1" +:+ "0")))
               (Some 1)
               "Vote recorded (simulated - connection failed)").
Proof.
  exact (proj1 (proj2 (cast_vote_degrades (platform := demo_platform) client_probe_down
                         demo_voter_hash "P1" (demo_world empty_db)))
           timeout_error eq_refl eq_refl).
Defined.

(** On the code, [isVotingActive] raises and the submission nevertheless
    ends confirmed with the real transaction hash, or rejected when the
    receipt reports failure: neither result is the simulated one. *)
Lemma raise_absorbed_then_confirmed_or_rejected :
  (cast_vote_on_blockchain (platform := demo_platform) (client_status_unknown 1)
     demo_voter_hash "P1" (demo_world empty_db)).1
  = Returns (CastResult true (Some demo_tx_hash) (Some 7)
               "Vote successfully recorded on blockchain")
  /\ (cast_vote_on_blockchain (platform := demo_platform) (client_status_unknown 0)
        demo_voter_hash "P1" (demo_world empty_db)).1
     = Returns (CastResult false None None "Blockchain transaction failed")
  /\ trace (cast_vote_on_blockchain (platform := demo_platform) (client_status_unknown 0)
              demo_voter_hash "P1" (demo_world empty_db)).2
     = [SubmitEnd (CastResult false None None "Blockchain transaction failed");
        LibCall WaitForTransactionReceipt false; LibCall SendRawTransaction false;
        LibCall SignTransaction false; LibCall BuildTransaction false;
        LibCall GetTransactionCount false; LibCall GasPrice false;
        LibCall EstimateGas false; LibCall ToBytes false;
        LibCall IsVotingActive true;
        LibCall HasVoted false; LibCall ToBytes false; LibCall GetBlockLatest false;
        SubmitBegin].
Proof. vm_compute. done. Qed.

Lemma has_voter_voted_false_on_failure_witness :
  has_voter_voted client_no_contract demo_voter_hash (demo_world empty_db)
    = (Returns false, demo_world empty_db)
  /\ (has_voter_voted client_guard_down demo_voter_hash (demo_world empty_db)).1
     = Returns false.
Proof.
  split.
  - exact (proj1 (proj2 (has_voter_voted_false_on_failure client_no_contract demo_voter_hash
                           (demo_world empty_db)))
             eq_refl).
  - exact (proj1 (proj2 (proj2 (proj2 (has_voter_voted_false_on_failure client_guard_down
                                         demo_voter_hash (demo_world empty_db)))))
             demo_voter_hash timeout_error eq_refl eq_refl).
Defined.

Lemma cast_vote_without_contract_witness :
  (cast_vote_on_blockchain (platform := demo_platform) client_no_contract
     demo_voter_hash "P1" (demo_world empty_db)).1
  = Returns (CastResult true
               (Some ("0x" +:+ demo_digest (demo_voter_hash +:+ "P1" +:+ "0")))
               (Some 1)
               "Vote recorded (simulated - blockchain not configured)").
Proof.
  exact (f_equal fst
           (proj1 (cast_vote_without_contract (platform := demo_platform) client_no_contract
                     demo_voter_hash "P1" (demo_world empty_db) eq_refl))).
Defined.

End LedgerFacts.

(** ** The audit *)

Module AuditFacts.
Import Models Ledger Ops LedgerFacts.
Local Open Scope Z_scope.

(** The record carries a ledger reference. *)
Definition has_transaction (r : VoteRecord) : bool :=
  match blockchain_transaction r with
  | Some _ => true
  | None => false
  end.

Definition count (p : VoteRecord -> bool) (rs : list VoteRecord) : Z :=
  Z.of_nat (length (List.filter p rs)).

Lemma count_cons p r rs : count p (r :: rs) = (if p r then 1 else 0) + count p rs.
Proof. unfold count. cbn. destruct (p r); cbn [length]; lia. Qed.

(** No decoded event, whose party identifier is a [str], equals a [UUID]. *)
Lemma no_event_matches_uuid (voter_hash_ : string) (u : UUID) (evs : list (string * string)) :
  existsb (fun ev => bool_decide (ev.1 = voter_hash_) && str_eq ev.2 (PyUUID u)) evs = false.
Proof. induction evs as [|ev evs IH]; [done|]. cbn. by rewrite andb_false_r. Qed.

Section Run.
Variable self : BlockchainClient.

(** Asked with the [UUID] of a stored record, the verification answers
    [False], whatever the ledger holds. *)
Lemma verify_vote_uuid voter_hash_ u tx_hash w :
  exists w', verify_vote_on_blockchain self voter_hash_ (PyUUID u) tx_hash w
             = (Returns false, w')
             /\ db w' = db w /\ connection w' = connection w
             /\ ticks w' = ticks w /\ clock w' = clock w.
Proof.
  cbv beta iota delta [verify_vote_on_blockchain call try_except bind log modify ret raise].
  fields.
  destruct (eth_get_transaction_receipt (w3 self) tx_hash) as [rc|e]; fields; [|eauto 10].
  destruct (receipt_status rc =? 1); cbn [negb]; fields; [|eauto 10].
  destruct (contract self); fields; [|eauto 10].
  destruct (VoteCast_process_receipt (w3 self) rc) as [evs|e]; fields; [|eauto 10].
  rewrite no_event_matches_uuid. eauto 10.
Qed.

(** The loop over the stored records: no record is counted as verified,
    every record with a ledger reference is counted as failed. *)
Lemma audit_loop_counts records :
  forall verified_count_ failed_count_ w,
    exists w',
      audit_loop self records verified_count_ failed_count_ w
        = (Returns (verified_count_, failed_count_ + count has_transaction records), w')
      /\ db w' = db w /\ connection w' = connection w
      /\ ticks w' = ticks w /\ clock w' = clock w.
Proof.
  induction records as [|record rest IH]; intros v f w.
  - exists w. unfold count. cbn. by rewrite Z.add_0_r.
  - rewrite count_cons. cbn [audit_loop]. unfold has_transaction.
    destruct (blockchain_transaction record) as [t|] eqn:Ht.
    + unfold bind at 1.
      destruct (verify_vote_uuid (voter_hash record) (record_party_id record)
                  (transaction_hash t) w) as (w1 & -> & Hdb & Hc & Hti & Hcl).
      rewrite Z.add_assoc.
      destruct (IH v (f + 1) w1) as (w' & -> & Hdb' & Hc' & Hti' & Hcl').
      exists w'. split; [done|]. repeat split; congruence.
    + destruct (IH v f w) as (w' & -> & Hdb' & Hc' & Hti' & Hcl').
      exists w'. by split.
Qed.

(** C6: a run of [audit_vote_integrity] leaves the database as it found
    it: no stored [VoteRecord] changes, whether its ledger event verified
    or not.  (The one write the loop contains, [record.save()], sits behind
    an assignment to the read-only property [is_verified].) *)
Theorem audit_never_mutates_records w :
  db (audit_vote_integrity self w).2 = db w
  /\ vote_records (db (audit_vote_integrity self w).2) = vote_records (db w).
Proof.
  assert (db (audit_vote_integrity self w).2 = db w) as E; [|by rewrite E].
  unfold audit_vote_integrity, try_except, bind at 1, db_read, bind at 1,
    validate_no_broken_transaction.
  destruct (needs_rollback (connection w)); [done|].
  unfold gets, bind at 1.
  destruct (audit_loop_counts (vote_records (db w)) 0 0 w) as (w1 & -> & Hdb & _).
  done.
Qed.

End Run.

Lemma save_misses_other_keys (r : VoteRecord) (rs : list VoteRecord) :
  record_pk r ∉ map record_pk rs ->
  map (fun x => if bool_decide (record_pk x = record_pk r) then r else x) rs = rs.
Proof.
  induction rs as [|y rs IH]; [done|]. cbn. intros Hn.
  apply not_elem_of_cons in Hn as [Hy Hn].
  rewrite bool_decide_eq_false_2 by congruence. f_equal. by apply IH.
Qed.

(** Saving a record that was read from the table and not changed writes
    back the row that is already there. *)
Lemma save_unchanged_record_is_noop (r : VoteRecord) (d : Database) :
  NoDup (map record_pk (vote_records d)) -> r ∈ vote_records d ->
  vote_records (VoteRecord_save r d).2 = vote_records d.
Proof.
  cbn. induction (vote_records d) as [|x rs IH]; intros Hnd Hin; [done|].
  cbn in Hnd |- *. apply NoDup_cons in Hnd as [Hx Hnd].
  apply elem_of_cons in Hin as [<-|Hin].
  - rewrite bool_decide_eq_true_2 by done. f_equal. by apply save_misses_other_keys.
  - rewrite IH by done. case_bool_decide as Hpk; [|done].
    destruct Hx. rewrite Hpk. apply list_elem_of_fmap. by exists r.
Qed.

(** The audit scenario: a hundred stored records, numbered from 0, for one
    party; record [n] refers to transaction [n], mined in block [n], and
    the ledger holds for that transaction a [VoteCast] event with the party
    identifier as text and the hash of voter [n].  The first ninety-five
    records carry the hash of voter [n], the last five the hash of another
    voter. *)
Definition three_digits (n : nat) : string :=
  (if (n <? 10)%nat then "00" else if (n <? 100)%nat then "0" else "") +:+ pretty n.

Definition scenario_voter_hash (n : nat) : string :=
  "0x5d41402abc4b2a76b9719d911017c592a3f1c2d4e5f60718293a4b5c6d7e8" +:+ three_digits n.

Definition scenario_tx_hash (n : nat) : string :=
  "0x9a1b2c3d4e5f60718293a4b5c6d7e8f90a1b2c3d4e5f60718293a4b5c6d7e" +:+ three_digits n.

Definition scenario_party : UUID := MkUUID "7c9e6679-7425-40de-944b-e07fc1f90ae7".

Definition scenario_record (n : nat) : VoteRecord :=
  MkVoteRecord ("record-" +:+ pretty n)
    (scenario_voter_hash (if (n <? 95)%nat then n else 900 + n))
    scenario_party 0
    (Some (MkTransaction ("transaction-" +:+ pretty n) (scenario_tx_hash n) "VOTE_CAST"
             "CONFIRMED" demo_account demo_contract (Some 21000) (Some 1)
             (Some (Z.of_nat n)) demo_block_hash "network-0" "" 0))
    None 0.

Definition scenario_db : Database :=
  MkDatabase [] [] [] [] [] [] (map scenario_record (seq 0 100)).

Definition scenario_receipt (h : string) : result receipt :=
  match filter (fun n => scenario_tx_hash n = h) (seq 0 100) with
  | n :: _ => Returns (Receipt 1 (Some demo_account) (Some demo_contract) (Some 21000)
                               (Some 1) (Z.of_nat n) (Some demo_block_hash))
  | [] => Raises (Exn RuntimeFault "Transaction not found")
  end.

Definition scenario_node : Node :=
  MkNode (Returns 1) (Returns 1337) (Returns 1) (fun _ => Returns 0)
         demo_to_bytes (fun _ => Returns false) (Returns true)
         (fun _ _ _ => Returns 21000) (fun _ _ _ => Returns "tx")
         (fun _ _ => Returns "signed") (fun _ => Returns demo_tx_hash)
         scenario_receipt scenario_receipt
         (fun rc => Returns [(scenario_voter_hash (Z.to_nat (blockNumber rc)),
                              uuid_str scenario_party)]).

Definition scenario_client : BlockchainClient := demo_client true scenario_node.

Definition report_of (out : result audit_report * World) : audit_report :=
  match out.1 with
  | Returns r => r
  | Raises e => AuditReport 0 0 0 (PyInt 0) "raised" None (Some (exn_str e))
  end.

(** What [verify_vote_on_blockchain] answers for a stored record when it
    is asked with the party identifier as text. *)
Definition ledger_event_matches (self : BlockchainClient) (w : World) (r : VoteRecord) : bool :=
  match blockchain_transaction r with
  | Some t =>
      match (verify_vote_on_blockchain self (voter_hash r)
               (PyStr (uuid_str (record_party_id r))) (transaction_hash t) w).1 with
      | Returns b => b
      | Raises _ => false
      end
  | None => false
  end.

(** C5 on the code.  The ledger events of ninety-five of the hundred
    records match, those of five do not; the audit nevertheless counts no
    record as verified and all hundred as failed, because it compares the
    party identifier of the event, a [str], with the [UUID] of the stored
    record.  The percentage is the float 0.0, the report's status a
    warning, and the command's bands call it poor. *)
Theorem audit_scenario_on_code :
  count (ledger_event_matches scenario_client (demo_world scenario_db))
        (vote_records scenario_db) = 95
  /\ report_of (audit_vote_integrity scenario_client (demo_world scenario_db))
     = AuditReport 100 0 100 (PyFloat 0%float) "warning" (Some 0) None
  /\ audit_integrity_band
       (report_of (audit_vote_integrity scenario_client (demo_world scenario_db))) = Poor.
Proof. vm_compute. done. Qed.

End AuditFacts.

(** ** The vote table *)

Module ModelsFacts.
Import Models.
Local Open Scope Z_scope.

Definition first_vote : Vote :=
  MkVote "vote-1" "voter-1" "party-A" (Some "0xaaa") (Some 1) 0 true None.

Definition second_vote : Vote :=
  MkVote "vote-2" "voter-1" "party-B" (Some "0xbbb") (Some 2) 5 true None.

Definition repeated_vote : Vote :=
  MkVote "vote-3" "voter-1" "party-A" (Some "0xccc") (Some 3) 9 true None.

Definition one_vote_db : Database := MkDatabase [] [] [first_vote] [] [] [] [].

(** C1 on the code: the declared constraint is on the pair (voter, party).
    A second row for the same voter is refused when it names the same
    party, and accepted when it names another one, after which the voter
    has two rows. *)
Theorem second_vote_for_other_party_is_stored :
  (Vote_insert repeated_vote one_vote_db).1
    = Raises (Exn IntegrityError "UNIQUE constraint failed: voting_vote")
  /\ Vote_insert second_vote one_vote_db
     = (Returns second_vote, MkDatabase [] [] [first_vote; second_vote] [] [] [] [])
  /\ vote_count_of "voter-1" (Vote_insert second_vote one_vote_db).2 = 2%nat.
Proof. vm_compute. done. Qed.

End ModelsFacts.

(** ** The submission coordinator *)

Module ViewsFacts.
Import Models Ledger Views LedgerFacts.
Local Open Scope Z_scope.

(** Read in the order things happened: no database write is seen before
    the entry into [cast_vote_on_blockchain]. *)
Fixpoint no_write_until_submit (chronological : list event) : bool :=
  match chronological with
  | [] => true
  | SubmitBegin :: _ => true
  | DbWrite _ :: _ => false
  | _ :: rest => no_write_until_submit rest
  end.

Lemma no_write_among_calls l : Forall is_lib_call l -> no_write_until_submit l = true.
Proof. induction 1 as [|ev l Hev _ IH]; [done|]. by destruct ev. Qed.

Lemma no_write_before_submit l rest :
  Forall is_lib_call l -> no_write_until_submit (l ++ SubmitBegin :: rest) = true.
Proof. induction 1 as [|ev l Hev _ IH]; [done|]. by destruct ev. Qed.

Lemma lib_call_not_submit l : Forall is_lib_call l -> Forall not_submit l.
Proof. induction 1 as [|ev l Hev _ IH]; constructor; [by destruct ev|done]. Qed.

Lemma submit_end_not_among l r : Forall not_submit l -> SubmitEnd r ∈ l -> False.
Proof. intros Hl Hin. rewrite Forall_forall in Hl. exact (Hl _ Hin). Qed.

Lemma trace_shape (a c h t : list event) r :
  a ++ SubmitEnd r :: c ++ SubmitBegin :: h ++ t
  = (a ++ SubmitEnd r :: c ++ SubmitBegin :: h) ++ t.
Proof. rewrite <- app_assoc. cbn. by rewrite <- app_assoc. Qed.

Lemma submit_after_calls (a c h : list event) r :
  Forall is_lib_call h ->
  no_write_until_submit (rev (a ++ SubmitEnd r :: c ++ SubmitBegin :: h)) = true.
Proof.
  intros Hh. rewrite rev_app_distr. cbn. rewrite rev_app_distr. cbn.
  rewrite <- !app_assoc. cbn. apply no_write_before_submit. by apply Forall_rev.
Qed.

Lemma submit_end_unique (a c h : list event) r r' :
  Forall not_submit a -> Forall not_submit c -> Forall is_lib_call h ->
  SubmitEnd r' ∈ a ++ SubmitEnd r :: c ++ SubmitBegin :: h -> r' = r.
Proof.
  intros Ha Hc Hh. rewrite elem_of_app, elem_of_cons, elem_of_app, elem_of_cons.
  intros [Hin|[[= ->]|[Hin|[[=]|Hin]]]]; [|done| |].
  - destruct (submit_end_not_among _ _ Ha Hin).
  - destruct (submit_end_not_among _ _ Hc Hin).
  - destruct (submit_end_not_among _ _ (lib_call_not_submit _ Hh) Hin).
Qed.

Section Facts.
Context {platform : Platform}.

Lemma verify_vote_events self voter_hash_ party_id_ tx_hash w :
  exists b evs,
    verify_vote_on_blockchain self voter_hash_ party_id_ tx_hash w
      = (Returns b, MkWorld (db w) (session w) (evs ++ trace w) (clock w) (ticks w)
                            (uuid_source w) (uuids_drawn w) (connection w))
    /\ Forall is_lib_call evs.
Proof.
  cbv beta iota delta [verify_vote_on_blockchain call try_except bind log modify ret raise].
  fields.
  repeat (branch; fields);
    (eexists _, _; split; [do 2 f_equal; prefix | repeat constructor]).
Qed.

(** [create_vote_record] never raises and never gets as far as its
    INSERT: it only reads, and leaves database, session and connection as
    they were. *)
Lemma create_vote_record_events self voter_hash_ party_id_ tx_hash w :
  exists o w' evs,
    create_vote_record self voter_hash_ party_id_ tx_hash w = (Returns o, w')
    /\ trace w' = evs ++ trace w /\ Forall not_submit evs
    /\ session w' = session w /\ db w' = db w /\ connection w' = connection w.
Proof.
  unfold create_vote_record, try_except, bind at 1, db_read, bind at 1,
    validate_no_broken_transaction.
  destruct (needs_rollback (connection w)).
  { exists None, w, []. by repeat split. }
  unfold gets, bind at 1, time_time. unfold bind at 1.
  match goal with
  | |- context [verify_vote_on_blockchain ?s ?a ?b ?c ?x] =>
      destruct (verify_vote_events s a b c x) as (ok & evs & -> & Hevs)
  end.
  cbv beta iota delta [bind uuid4 lift set_is_verified ret]. fields.
  eexists _, _, evs. split; [reflexivity|]. fields.
  split; [done|]. split; [by apply lib_call_not_submit|done].
Qed.

Variable client : BlockchainClient.

Ltac block_step :=
  match goal with
  | |- context [create_vote_record ?s ?a ?b ?c ?x] =>
      let Ht := fresh "Hcr_trace" in
      let Hn := fresh "Hcr_events" in
      let Hs := fresh "Hcr_session" in
      let Hd := fresh "Hcr_db" in
      let Hc := fresh "Hcr_connection" in
      destruct (create_vote_record_events s a b c x) as (? & ? & ? & -> & Ht & Hn & Hs & Hd & Hc)
  | _ => branch
  end.

(** What the block under [transaction.atomic()] does, started in [w1]. *)
Lemma cast_and_commit_spec request voter_ party voter_hash_ w1 :
  exists out w' r evs_c evs_after,
    atomic (cast_and_commit (Some client) request voter_ party voter_hash_) w1 = (out, w')
    /\ trace w' = evs_after ++ SubmitEnd r :: evs_c ++ SubmitBegin :: trace w1
    /\ Forall not_submit evs_c /\ Forall not_submit evs_after
    /\ (success r = false ->
        out = Returns (failed ("Blockchain vote failed: " +:+ message r))
        /\ evs_after = [] /\ db w' = db w1 /\ session w' = session w1).
Proof.
  unfold atomic, cast_and_commit, the_client. cbv zeta.
  unfold bind at 1, ret at 1. unfold bind at 1.
  match goal with
  | |- context [cast_vote_on_blockchain ?c ?vh ?p ?x] =>
      destruct (cast_vote_on_blockchain_spec c vh p x)
        as (r & w2 & -> & Hs & _ & _ & _ & (evs_c & Htr & Hc) & Hdb)
  end.
  cbn [db session trace with_connection] in Hs, Htr, Hdb.
  destruct (success r) eqn:Hok; cbn [negb].
  - cbv beta iota delta [bind uuid4 time_time db_write db_exec Vote_insert Voter_save
      validate_no_broken_transaction mark_for_rollback_on_error session_pop
      log modify ret].
    fields.
    repeat (block_step; fields).
    all: eexists _, _, r, evs_c, _; (split; [reflexivity|]); fields.
    all: rewrite ?Hcr_trace; fields; rewrite Htr.
    all: split; [prefix|]; (split; [done|]).
    all: split; [|intros Hf; congruence].
    all: first [ apply Forall_app; split; [done|repeat constructor] | repeat constructor ].
  - unfold ret. destruct (Hdb eq_refl) as [Hd _].
    destruct (needs_rollback (connection w2)); fields.
    all: eexists _, _, r, evs_c, []; (split; [reflexivity|]); fields.
    all: split; [done|]; split; [done|]; split; [constructor|]; intros _; auto.
Qed.

End Facts.

Lemma Voter_get_reads e w r w' : Voter_get e w = (r, w') -> w' = w.
Proof.
  unfold Voter_get, db_read, bind, validate_no_broken_transaction, gets, ret, raise.
  destruct (needs_rollback (connection w)); [by intros [= _ <-]|].
  destruct (filter _ (voters (db w))) as [|? [|? ?]]; by intros [= _ <-].
Qed.

Lemma PoliticalParty_get_reads pid w r w' :
  PoliticalParty_get pid w = (r, w') -> w' = w.
Proof.
  unfold PoliticalParty_get, db_read, bind, validate_no_broken_transaction, gets, ret, raise.
  destruct (needs_rollback (connection w)); [by intros [= _ <-]|].
  destruct (filter _ (parties (db w))) as [|? [|? ?]]; by intros [= _ <-].
Qed.

(** A query that returned a row ran on a connection that is not marked. *)
Lemma Voter_get_live e w v w' :
  Voter_get e w = (Returns v, w') -> needs_rollback (connection w) = false.
Proof.
  unfold Voter_get, db_read, bind, validate_no_broken_transaction.
  by destruct (needs_rollback (connection w)).
Qed.

Section Post.
Context {platform : Platform}.
Variable blockchain_client : option BlockchainClient.

Ltac view_step :=
  match goal with
  | |- context [has_voter_voted ?c ?vh ?x] =>
      let Hh := fresh "Hcalls" in
      destruct (has_voter_voted_total c vh x) as (? & ? & -> & Hh)
  | |- context [atomic (cast_and_commit (Some ?c) ?rq ?v ?p ?vh) ?x] =>
      let Htr := fresh "Htr" in
      let Hc := fresh "Hmid" in
      let Ha := fresh "Hafter" in
      let Hr := fresh "Hrej" in
      destruct (cast_and_commit_spec c rq v p vh x) as (? & ? & ? & ? & ? & -> & Htr & Hc & Ha & Hr)
  | _ => branch
  end.

(** C3: in [CastVoteView.post] nothing is written to the database before
    [cast_vote_on_blockchain] is entered, and when that call returns a
    dictionary without success the view answers with the ledger's message
    and leaves database and session as they were. *)
Theorem ledger_submit_precedes_local_writes request w :
  exists resp w' evs,
    post blockchain_client request w = (Returns resp, w')
    /\ trace w' = evs ++ trace w
    /\ no_write_until_submit (rev evs) = true
    /\ (forall r, SubmitEnd r ∈ evs -> success r = false ->
          resp = failed ("Blockchain vote failed: " +:+ message r)
          /\ db w' = db w /\ session w' = session w).
Proof.
  cbv beta iota delta [post try_except try_except_on bind read_party_id session_get gets
    db_read validate_no_broken_transaction Voter_get PoliticalParty_get the_client
    ret raise time_time].
  fields.
  repeat (view_step; fields; cbn [exn_cls]; classes; known; fields).
  all: eexists _, _, _; (split; [reflexivity|]); fields.
  all: first
    [ split; [exact (eq_refl : trace w = [] ++ trace w)|];
      split; [reflexivity|]; intros r Hin; by apply elem_of_nil in Hin
    | split; [reflexivity|];
      split; [apply no_write_among_calls, Forall_rev; assumption|];
      intros r Hin;
      destruct (submit_end_not_among _ _ (lib_call_not_submit _ Hcalls) Hin)
    | cbn [db session trace with_db fst snd] in Htr, Hrej;
      rewrite trace_shape in Htr;
      split; [exact Htr|];
      split; [apply submit_after_calls; assumption|];
      intros r' Hin Hf;
      apply submit_end_unique in Hin as ->; [|assumption..];
      destruct (Hrej Hf) as (Hout & _ & Hdb & Hs);
      split; [congruence|]; split; assumption ].
Qed.

Definition already_voted : JsonResponse :=
  failed "You have already cast your vote. Multiple voting is not allowed.".

(** C8: when the session's voter already has a row in the vote table,
    [post] changes nothing and observes nothing (no ledger call of any
    kind, no write) whatever the request carries; and for a request naming
    an active party the answer is the already-voted refusal. *)
Theorem committed_voter_is_turned_away request w e v :
  session w !! "verified_voter_email" = Some e ->
  truthy e = true ->
  Voter_get e w = (Returns v, w) ->
  votes_of (voter_pk v) (db w) <> [] ->
  (post blockchain_client request w).2 = w
  /\ (forall pid p,
        body request = JsonObject (Some pid) -> truthy pid = true ->
        PoliticalParty_get pid w = (Returns p, w) ->
        (post blockchain_client request w).1 = Returns already_voted).
Proof.
  intros Hs He Hv Hvotes.
  assert (bool_decide (votes_of (voter_pk v) (db w) = []) = false) as Hb
    by (by apply bool_decide_eq_false_2).
  pose proof (Voter_get_live _ _ _ _ Hv) as Hlive.
  split.
  - cbv beta iota delta [post try_except try_except_on bind read_party_id session_get gets
      db_read validate_no_broken_transaction ret raise].
    destruct (body request) as [| |[pid|]]; cbn; try done. rewrite Hs.
    destruct (truthy pid); cbn [negb]; [|done].
    rewrite He. cbn [negb]. cbv beta. rewrite Hv.
    destruct (PoliticalParty_get pid w) as [[p|ex] wp] eqn:Hp.
    + apply PoliticalParty_get_reads in Hp as Hw. subst wp. fields. by rewrite Hlive, Hb.
    + apply PoliticalParty_get_reads in Hp as Hw. subst wp.
      repeat (branch; fields); done.
  - intros pid p Hbody Hpid Hp.
    cbv beta iota delta [post try_except try_except_on bind read_party_id session_get gets
      db_read validate_no_broken_transaction ret raise].
    rewrite Hbody, Hs, He, Hpid. cbn [negb]. rewrite Hv, Hp. fields. by rewrite Hlive, Hb.
Qed.

End Post.

(** A small election to run the view on. *)
Definition asha : Voter :=
  MkVoter "voter-1" "Asha" "asha@example.org" "123412341234" true false.

Definition party_a : PoliticalParty := MkParty "party-a" "PA" "Party A" true.

Definition election_db : Database :=
  MkDatabase [asha] [party_a] [] [MkVotingSession true 0 3600000000] [] [] [].

Definition verified_session : gmap string string :=
  {[ "verified_voter_email" := "asha@example.org" ]}.

Definition election_world : World :=
  MkWorld election_db verified_session [] (fun n => 1000000 * Z.of_nat n) 0
          (fun n => "uuid-" +:+ pretty n) 0 idle.

Definition ballot : HttpRequest := MkRequest (JsonObject (Some "PA")) None (Some "10.0.0.1").

(** The ledger accepts the vote. *)
Definition client_accepting : BlockchainClient :=
  demo_client true (demo_node (Returns 1) (Returns false) (Returns true) 1).

(** The ledger mines the transaction with a failure status. *)
Definition client_reverting : BlockchainClient :=
  demo_client true (demo_node (Returns 1) (Returns false) (Returns true) 0).

Definition after_first_vote : World :=
  (post (platform := demo_platform) (Some client_accepting) ballot election_world).2.

(** The same voter, verified once more. *)
Definition reverified : World := with_session verified_session after_first_vote.

Lemma committed_voter_is_turned_away_witness :
  (post (platform := demo_platform) (Some client_accepting) ballot reverified).2 = reverified
  /\ (post (platform := demo_platform) (Some client_accepting) ballot reverified).1
     = Returns already_voted.
Proof.
  destruct (committed_voter_is_turned_away (platform := demo_platform)
              (Some client_accepting) ballot reverified
              "asha@example.org" (mark_voted asha)) as [Hw Hr];
    [vm_compute; reflexivity | reflexivity | vm_compute; reflexivity
    | vm_compute; discriminate |].
  split; [exact Hw|].
  apply (Hr "PA" party_a); [reflexivity | reflexivity | vm_compute; reflexivity].
Defined.

(** The first submission commits; sent again in the same session it is
    refused for want of a verified session (the view cleared it), and sent
    again after a new verification it is refused as already voted. *)
Lemma submit_twice_example :
  (post (platform := demo_platform) (Some client_accepting) ballot election_world).1
    = Returns (MkResponse true "Vote cast successfully!" (Some "uuid-2") (Some demo_tx_hash)
                 (Some 4000000) (Some "Party A"))
  /\ (post (platform := demo_platform) (Some client_accepting) ballot after_first_vote).1
     = Returns (failed "Voter not verified. Please complete verification first.")
  /\ (post (platform := demo_platform) (Some client_accepting) ballot reverified).1
     = Returns already_voted
  /\ trace (post (platform := demo_platform) (Some client_accepting) ballot reverified).2
     = trace after_first_vote.
Proof. vm_compute. done. Qed.

(** A submission the ledger rejects: the view reports the rejection and
    the database and the session are as before. *)
Lemma rejected_submission_example :
  (post (platform := demo_platform) (Some client_reverting) ballot election_world).1
    = Returns (failed "Blockchain vote failed: Blockchain transaction failed")
  /\ db (post (platform := demo_platform) (Some client_reverting) ballot election_world).2
     = election_db
  /\ session (post (platform := demo_platform) (Some client_reverting) ballot election_world).2
     = verified_session.
Proof. vm_compute. done. Qed.

End ViewsFacts.

(** ** Further properties of the challenge service *)

Module EmailJSExtra.
Import EmailJS EmailJSRest EmailJSFacts.
Local Open Scope Z_scope.

(** A code that verified once is gone: the next call, whatever it carries,
    finds no challenge. *)
Theorem verified_code_cannot_be_reused
    (self : EmailJSService) (email : string) (c : Cache) (e : cache_entry)
    (t1 t2 : Z) (again : string) :
  entries c !! cache_key email = Some e ->
  t1 < expires_at e ->
  attempts (value e) < max_attempts self ->
  (verify_at self email healthy t1 (code (value e)) c).1 = Returns verified
  /\ (verify_at self email healthy t2 again
        (verify_at self email healthy t1 (code (value e)) c).2).1
     = Returns code_not_found.
Proof.
  intros He Ht Ha. unfold verify_at.
  erewrite (verify_code_match self email (at_time t1 healthy c)); [|done|exact He|done|done].
  split; [done|]. cbn [fst snd at_time entries].
  rewrite verify_code_absent; [done|done|].
  cbn. intros e'. by rewrite lookup_delete_eq.
Qed.

Lemma verified_code_cannot_be_reused_witness :
  (verify_at h1_service "H1" healthy 10 "482913" h1_issued).1 = Returns verified
  /\ (verify_at h1_service "H1" healthy 20 "482913"
        (verify_at h1_service "H1" healthy 10 "482913" h1_issued).2).1
     = Returns code_not_found.
Proof.
  apply (verified_code_cannot_be_reused h1_service "H1" h1_issued
           (CacheEntry (VerificationData "482913" 0 0) 900) 10 20 "482913");
    [vm_compute; reflexivity | reflexivity | reflexivity].
Defined.

(** The cache as [store_verification_code] leaves it when the backend is
    up: one fresh entry for the address, with no attempt counted. *)
Lemma store_verification_code_healthy self email code_ c :
  (forall op, faulty c op = false) ->
  store_verification_code self email code_ c
  = (Returns true,
     MkCache (<[cache_key email := CacheEntry (VerificationData code_ (now c) 0)
                                     (now c + ttl self)]> (entries c))
             (now c) (faulty c)).
Proof.
  intros up. unfold store_verification_code, try_except, bind, gets, cache_set.
  by rewrite up.
Qed.

(** Issued at [t0], a code is answered CODE_NOT_FOUND from [t0] plus the
    fifteen minutes on, right code or not, and the cache is left alone. *)
Theorem expired_code_is_not_found
    (self : EmailJSService) (email code_ provided : string) (c0 : Cache) (t0 t : Z) :
  t0 + ttl self <= t ->
  verify_at self email healthy t provided
    (store_verification_code self email code_ (at_time t0 healthy c0)).2
  = (Returns code_not_found,
     at_time t healthy (store_verification_code self email code_ (at_time t0 healthy c0)).2).
Proof.
  intros Ht. unfold verify_at.
  rewrite store_verification_code_healthy by done. cbn [snd].
  apply verify_code_absent; [done|].
  cbn. intros e'. rewrite lookup_insert_eq. intros [= <-]. cbn. lia.
Qed.

Lemma expired_code_is_not_found_witness :
  (verify_at h1_service "H1" healthy 960 "482913" h1_issued).1 = Returns code_not_found.
Proof.
  exact (f_equal fst
           (expired_code_is_not_found h1_service "H1" "482913" "482913"
              (MkCache ∅ 0 healthy) 0 960 ltac:(vm_compute; discriminate))).
Defined.

(** Issuing replaces whatever the cache held for the address, an exhausted
    challenge included: within the fifteen minutes the new code verifies. *)
Theorem issued_code_verifies
    (self : EmailJSService) (email code_ : string) (c0 : Cache) (t0 t : Z) :
  0 < max_attempts self ->
  t < t0 + ttl self ->
  (store_verification_code self email code_ (at_time t0 healthy c0)).1 = Returns true
  /\ (verify_at self email healthy t code_
        (store_verification_code self email code_ (at_time t0 healthy c0)).2).1
     = Returns verified.
Proof.
  intros Hm Ht. split; [by rewrite store_verification_code_healthy|].
  unfold verify_at.
  pose proof (verify_code_match self email
                (at_time t healthy
                   (store_verification_code self email code_ (at_time t0 healthy c0)).2)
                (fun _ => eq_refl)
                (CacheEntry (VerificationData code_ t0 0) (t0 + ttl self))) as Hv.
  cbn [code value] in Hv. rewrite Hv; [done| |done|done].
  rewrite store_verification_code_healthy by done. cbn. by rewrite lookup_insert_eq.
Qed.

Lemma issued_code_verifies_witness :
  (verify_at h1_service "H1" healthy 60 "111111"
     (store_verification_code h1_service "H1" "111111"
        (at_time 45 healthy h1_fourth.2)).2).1
  = Returns verified.
Proof.
  exact (proj2 (issued_code_verifies h1_service "H1" "111111" h1_fourth.2 45 60
                  eq_refl eq_refl)).
Defined.

(** Every counted attempt stores the challenge again with a full timeout:
    after a wrong code at [t1] the right code is accepted until [t1] plus
    the fifteen minutes, also past the expiry the entry had before. *)
Theorem wrong_attempt_renews_lifetime
    (self : EmailJSService) (email wrong : string) (c : Cache) (e : cache_entry)
    (t1 t2 : Z) :
  entries c !! cache_key email = Some e ->
  t1 < expires_at e ->
  attempts (value e) + 1 < max_attempts self ->
  wrong <> code (value e) ->
  t2 < t1 + ttl self ->
  (verify_at self email healthy t2 (code (value e))
     (verify_at self email healthy t1 wrong c).2).1
  = Returns verified.
Proof.
  intros He Ht1 Ha Hw Ht2. unfold verify_at.
  erewrite (verify_code_mismatch self email (at_time t1 healthy c));
    [|done|exact He|done|lia|done].
  cbn [snd at_time entries now faulty].
  pose proof (verify_code_match self email
                (at_time t2 healthy
                   (MkCache (<[cache_key email := CacheEntry (bump (value e)) (t1 + ttl self)]>
                               (entries c)) t1 healthy))
                (fun _ => eq_refl)
                (CacheEntry (bump (value e)) (t1 + ttl self))) as Hv.
  cbn [code value bump] in Hv.
  rewrite Hv; [done | cbn; by rewrite lookup_insert_eq | done | cbn; lia].
Qed.

Lemma wrong_attempt_renews_lifetime_witness :
  (verify_at h1_service "H1" healthy 1500 "482913"
     (verify_at h1_service "H1" healthy 800 "482910" h1_issued).2).1
  = Returns verified.
Proof.
  apply (wrong_attempt_renews_lifetime h1_service "H1" "482910" h1_issued
           (CacheEntry (VerificationData "482913" 0 0) 900) 800 1500);
    [vm_compute; reflexivity | reflexivity | reflexivity | discriminate | reflexivity].
Defined.

Definition not_configured : response :=
  failure "EmailJS is not properly configured" "NOT_CONFIGURED".

(** Resending starts over: on a configured service the address gets the
    new code with no attempt counted, whatever was stored before; on a
    service that is not configured the stored challenge is deleted all the
    same and nothing replaces it. *)
Theorem resend_starts_over
    (self : EmailJSService) (random_code email voter_name : string) (c : Cache) :
  (forall op, faulty c op = false) ->
  (is_configured self = true ->
     (exists r, (resend_verification_email self random_code email voter_name c).1 = Returns r
                /\ success r = true)
     /\ entries (resend_verification_email self random_code email voter_name c).2
          !! cache_key email
        = Some (CacheEntry (VerificationData random_code (now c) 0) (now c + ttl self)))
  /\ (is_configured self = false ->
        resend_verification_email self random_code email voter_name c
        = (Returns not_configured,
           MkCache (delete (cache_key email) (entries c)) (now c) (faulty c))).
Proof.
  intros up.
  unfold resend_verification_email, bind, clear_verification_code, try_except, bind,
    cache_delete.
  rewrite up. cbn [ret].
  unfold send_verification_email, try_except.
  split; intros Hc; rewrite Hc; cbn [negb]; [|done].
  unfold bind. rewrite store_verification_code_healthy by done. cbn.
  split; [eauto|]. by rewrite lookup_insert_eq.
Qed.

Lemma resend_starts_over_witness :
  entries (resend_verification_email h1_service "222222" "H1" ""
             (at_time 35 healthy h1_third.2)).2 !! cache_key "H1"
  = Some (CacheEntry (VerificationData "222222" 35 0) 935)
  /\ resend_verification_email (init "" "" "" "") "222222" "H1" ""
       (at_time 35 healthy h1_third.2)
     = (Returns not_configured,
        MkCache (delete (cache_key "H1") (entries h1_third.2)) 35 healthy).
Proof.
  split.
  - exact (proj2 (proj1 (resend_starts_over h1_service "222222" "H1" ""
                           (at_time 35 healthy h1_third.2) (fun _ => eq_refl))
                    eq_refl)).
  - exact (proj2 (resend_starts_over (init "" "" "" "") "222222" "H1" ""
                    (at_time 35 healthy h1_third.2) (fun _ => eq_refl))
             eq_refl).
Defined.

(** The status query never changes the cache.  For a live challenge it
    reports the attempts left and the seconds left of the fifteen minutes
    counted from the creation time; when the lookup raises it reports that
    nothing is pending, with all attempts left. *)
Theorem status_query_is_read_only
    (self : EmailJSService) (email : string) (c : Cache) :
  (get_verification_status self email c).2 = c
  /\ (forall e, faulty c OpGet = false ->
        entries c !! cache_key email = Some e -> now c < expires_at e ->
        (get_verification_status self email c).1
        = Returns (VerificationStatus true (max_attempts self - attempts (value e)) None
                     (Some (Z.max 0 (created_at (value e) + ttl self - now c)))
                     (Some (created_at (value e)))))
  /\ (faulty c OpGet = true ->
        (get_verification_status self email c).1 = Returns (no_pending self)).
Proof.
  unfold get_verification_status, try_except at 1, bind, get_verification_data,
    try_except, cache_get, gets, ret.
  split; [|split].
  - destruct (faulty c OpGet); [done|].
    destruct (entries c !! cache_key email) as [e|]; [|done].
    by destruct (now c <? expires_at e).
  - intros e -> -> Ht. apply Z.ltb_lt in Ht. by rewrite Ht.
  - by intros ->.
Qed.

Lemma status_query_is_read_only_witness :
  (get_verification_status h1_service "H1" (at_time 25 healthy h1_second.2)).1
  = Returns (VerificationStatus true 1 None (Some 875) (Some 0))
  /\ (get_verification_status h1_service "H1" (at_time 25 (only OpGet) h1_second.2)).1
     = Returns (no_pending h1_service).
Proof.
  split.
  - exact (proj1 (proj2 (status_query_is_read_only h1_service "H1"
                           (at_time 25 healthy h1_second.2)))
             (CacheEntry (VerificationData "482913" 0 2) 920)
             eq_refl ltac:(vm_compute; reflexivity) eq_refl).
  - exact (proj2 (proj2 (status_query_is_read_only h1_service "H1"
                           (at_time 25 (only OpGet) h1_second.2)))
             eq_refl).
Defined.

(** The countdown of the status query runs from the creation time, which
    a counted attempt does not touch, while the cache entry is renewed:
    past the first fifteen minutes the status shows a pending challenge
    with zero seconds left. *)
Theorem status_countdown_ignores_renewal
    (self : EmailJSService) (email wrong : string) (c : Cache) (e : cache_entry)
    (t1 t2 : Z) :
  entries c !! cache_key email = Some e ->
  t1 < expires_at e ->
  attempts (value e) + 1 < max_attempts self ->
  wrong <> code (value e) ->
  created_at (value e) + ttl self <= t2 ->
  t2 < t1 + ttl self ->
  (get_verification_status self email
     (at_time t2 healthy (verify_at self email healthy t1 wrong c).2)).1
  = Returns (VerificationStatus true (max_attempts self - (attempts (value e) + 1)) None
               (Some 0) (Some (created_at (value e)))).
Proof.
  intros He Ht1 Ha Hw Hc Ht2. unfold verify_at.
  erewrite (verify_code_mismatch self email (at_time t1 healthy c));
    [|done|exact He|done|lia|done].
  cbn [snd at_time entries now faulty].
  unfold get_verification_status, try_except at 1, bind at 1.
  erewrite get_verification_data_live;
    [|done|cbn; by rewrite lookup_insert_eq|done].
  cbn. do 3 f_equal. unfold ttl in *. lia.
Qed.

Lemma status_countdown_ignores_renewal_witness :
  (get_verification_status h1_service "H1"
     (at_time 1500 healthy (verify_at h1_service "H1" healthy 800 "482910" h1_issued).2)).1
  = Returns (VerificationStatus true 2 None (Some 0) (Some 0)).
Proof.
  apply (status_countdown_ignores_renewal h1_service "H1" "482910" h1_issued
           (CacheEntry (VerificationData "482913" 0 0) 900) 800 1500);
    [vm_compute; reflexivity | reflexivity | reflexivity | discriminate
    | vm_compute; discriminate | reflexivity].
Defined.

End EmailJSExtra.

(** ** Further properties of the ledger client *)

Module LedgerExtra.
Import Models Ledger LedgerReads LedgerFacts.
Local Open Scope Z_scope.

(** One step of a run of [cast_vote_on_blockchain]: the local recording is
    taken as a whole. *)
Ltac cast_step :=
  match goal with
  | |- context [record_blockchain_transaction ?s ?h ?ty ?r ?md ?x] =>
      let Hs := fresh "Hrec_session" in
      let Hv := fresh "Hrec_votes" in
      let Hw := fresh "Hrec_voters" in
      let Ha := fresh "Hrec_atomic" in
      let Ht := fresh "Hrec_trace" in
      let He := fresh "Hrec_events" in
      destruct (record_blockchain_transaction_spec s h ty r md x)
        as (? & ? & ? & -> & Hs & Hv & Hw & Ha & Ht & He)
  | _ => branch
  end.

Section Extra.
Context {platform : Platform}.
Variable self : BlockchainClient.

(** [verify_vote_on_blockchain] never raises and leaves database and
    session alone; it answers [True] exactly when the receipt is returned
    with status 1, a contract is loaded, the logs decode, and one decoded
    event carries this voter hash and this party, given as a [str]. *)
Theorem verify_vote_answer (voter_hash_ party_id_ tx_hash : string) (w : World) :
  exists b w',
    verify_vote_on_blockchain self voter_hash_ (PyStr party_id_) tx_hash w = (Returns b, w')
    /\ db w' = db w /\ session w' = session w
    /\ (b = true <->
        exists rc evs,
          eth_get_transaction_receipt (w3 self) tx_hash = Returns rc
          /\ receipt_status rc = 1
          /\ contract self = true
          /\ VoteCast_process_receipt (w3 self) rc = Returns evs
          /\ (voter_hash_, party_id_) ∈ evs).
Proof.
  cbv beta iota delta [verify_vote_on_blockchain str_eq call try_except bind log modify ret
    raise].
  fields.
  destruct (eth_get_transaction_receipt (w3 self) tx_hash) as [rc|e]; fields.
  2: { eexists _, _. repeat split; try done. intros (? & ? & [=] & _). }
  destruct (receipt_status rc =? 1) eqn:Hst; cbn [negb]; fields.
  2: { eexists _, _. repeat split; try done. intros (? & ? & [= <-] & Hs & _).
       apply Z.eqb_neq in Hst. done. }
  apply Z.eqb_eq in Hst.
  destruct (contract self) eqn:Hc; fields.
  2: { eexists _, _. repeat split; try done. intros (? & ? & _ & _ & [=] & _). }
  destruct (VoteCast_process_receipt (w3 self) rc) as [evs|e] eqn:Hev; fields.
  2: { eexists _, _. repeat split; try done. intros (? & ? & [= <-] & _ & _ & He & _).
       congruence. }
  eexists _, _. repeat split; try done.
  - intros Hex. exists rc, evs. repeat split; try done.
    apply existsb_exists in Hex as ([h p] & Hin & Hm).
    apply andb_prop in Hm as [Hh Hp].
    apply bool_decide_eq_true_1 in Hh. apply bool_decide_eq_true_1 in Hp.
    cbn in Hh, Hp. subst. by apply list_elem_of_In.
  - intros (rc' & evs' & [= <-] & _ & _ & He & Hin).
    assert (evs' = evs) as -> by congruence.
    apply existsb_exists. exists (voter_hash_, party_id_).
    split; [by apply list_elem_of_In|]. cbn. by rewrite !bool_decide_eq_true_2.
Qed.

(** A transaction is broadcast only after the probe answered, and never
    when the ledger reported the voter as having voted or the voting as
    closed. *)
Theorem broadcast_only_after_checks (voter_hash_ party_id_ : string) (w : World)
    (evs : list event) (raised : bool) :
  trace (cast_vote_on_blockchain self voter_hash_ party_id_ w).2 = evs ++ trace w ->
  LibCall SendRawTransaction raised ∈ evs ->
  contract self = true
  /\ (exists n, eth_get_block_latest (w3 self) = Returns n)
  /\ (exists b, to_bytes (w3 self) voter_hash_ = Returns b
                /\ hasVoted (w3 self) b <> Returns true)
  /\ isVotingActive (w3 self) <> Returns false.
Proof.
  cbv beta iota delta [cast_vote_on_blockchain cast_vote_body simulated rejected
    test_connection has_voter_voted account_address
    call try_except bind log modify ret raise time_time].
  fields.
  repeat (cast_step; fields); cbn [app]; fields_hyps; rewrite ?Hrec_trace; intros Htr Hev;
    match type of Htr with
    | ?lhs = ?ev ++ ?t =>
        let l := fresh "l" in
        evar (l : list event);
        assert (lhs = l ++ t) as Hl by (subst l; prefix);
        pose proof (app_inv_tail _ _ _ (eq_trans (eq_sym Hl) Htr)) as Hevs;
        subst l; subst ev
    end;
    clear Htr Hl;
    apply list_elem_of_In in Hev; cbn in Hev;
    try (exfalso; intuition congruence);
    repeat match goal with
           | H : negb ?a = _ |- _ => destruct a; cbn in H; try discriminate H; clear H
           end;
    (split; [by destruct (contract self)|]);
    (split; [eauto|]);
    (split; [eexists; split; [reflexivity|congruence]|congruence]).
Qed.

(** What [record_blockchain_transaction] stores carries the status
    CONFIRMED or FAILED in capitals, which [is_confirmed] does not
    recognise: a transaction recorded by the client never counts as
    confirmed. *)
Theorem recorded_transaction_never_confirmed
    (tx_hash tx_type metadata : string) (rc : receipt) (w w' : World)
    (t : BlockchainTransaction) :
  record_blockchain_transaction self tx_hash tx_type rc metadata w = (Returns (Some t), w') ->
  is_confirmed t = false
  /\ transaction_hash t = tx_hash
  /\ t ∈ transactions (db w').
Proof.
  cbv beta iota zeta delta [record_blockchain_transaction BlockchainNetwork_get_or_create
    BlockchainNetwork_get atomic db_read db_write db_exec validate_no_broken_transaction
    mark_for_rollback_on_error call try_except try_except_on bind log modify gets ret raise
    time_time uuid4 Network_insert Transaction_insert].
  fields.
  repeat (first [progress classes | branch]; fields; cbn [exn_cls andb orb]);
    intros [= <- <-]; fields;
    (split; [reflexivity|]); (split; [reflexivity|]);
    cbn; apply elem_of_app; right; apply list_elem_of_In; by left.
Qed.

Lemma taken_hash_conflicts (t : BlockchainTransaction) (ts : list BlockchainTransaction) :
  transaction_hash t ∈ map transaction_hash ts ->
  existsb (fun o => bool_decide (transaction_pk o = transaction_pk t)
                    || bool_decide (transaction_hash o = transaction_hash t)) ts = true.
Proof.
  intros Hin. apply list_elem_of_fmap in Hin as (o & Ho & Hin).
  apply existsb_exists. exists o. split; [by apply list_elem_of_In|].
  by rewrite (bool_decide_eq_true_2 (transaction_hash o = transaction_hash t)), orb_true_r.
Qed.

(** The run of a recording whose INSERT is refused because the hash is
    already in the table. *)
Lemma recording_refused (tx_hash tx_type : string) (rc : receipt) (metadata : string)
    (w : World) (chain : Z) (net : BlockchainNetwork) :
  needs_rollback (connection w) = false ->
  eth_chain_id (w3 self) = Returns chain ->
  filter (fun x => network_name x = "default") (networks (db w)) = [net] ->
  tx_hash ∈ map transaction_hash (transactions (db w)) ->
  record_blockchain_transaction self tx_hash tx_type rc metadata w
  = (Returns None,
     MkWorld (db w) (session w) (LibCall ChainId false :: trace w) (clock w) (S (ticks w))
             (uuid_source w) (S (uuids_drawn w))
             (MkConnection (in_atomic_block (connection w))
                           (in_atomic_block (connection w)))).
Proof.
  intros Hlive Hchain Hnet Hin.
  cbv beta iota zeta delta [record_blockchain_transaction BlockchainNetwork_get_or_create
    BlockchainNetwork_get db_read db_write db_exec validate_no_broken_transaction
    mark_for_rollback_on_error call try_except try_except_on bind log modify gets ret raise
    time_time uuid4 Transaction_insert].
  rewrite Hchain. fields. rewrite Hlive. fields. rewrite Hnet. fields. rewrite Hlive.
  fields.
  match goal with
  | |- context [existsb ?f ?l] =>
      match f with
      | context [MkTransaction ?pk ?h ?ty ?st ?fr ?to ?gu ?gp ?bn ?bh ?nw ?md ?cr] =>
          rewrite (taken_hash_conflicts (MkTransaction pk h ty st fr to gu gp bn bh nw md cr))
            by exact Hin
      end
  end.
  fields. destruct (connection w) as [[|] nr]; cbn in *; by subst.
Qed.

(** A recording that fails at its INSERT returns [None] and stores
    nothing; inside an [atomic] block it leaves the transaction marked for
    rollback, so that no further statement can run in that block. *)
Theorem failed_recording_marks_transaction
    (tx_hash tx_type metadata : string) (rc : receipt) (w : World)
    (chain : Z) (net : BlockchainNetwork) :
  needs_rollback (connection w) = false ->
  eth_chain_id (w3 self) = Returns chain ->
  filter (fun x => network_name x = "default") (networks (db w)) = [net] ->
  tx_hash ∈ map transaction_hash (transactions (db w)) ->
  exists w',
    record_blockchain_transaction self tx_hash tx_type rc metadata w = (Returns None, w')
    /\ db w' = db w /\ session w' = session w
    /\ in_atomic_block (connection w') = in_atomic_block (connection w)
    /\ needs_rollback (connection w') = in_atomic_block (connection w)
    /\ (in_atomic_block (connection w) = true ->
        forall A (q : Database -> A), exists e, (db_read q w').1 = Raises e).
Proof.
  intros Hlive Hchain Hnet Hin.
  eexists. split; [by apply (recording_refused _ _ _ _ _ chain net)|]. fields.
  do 4 (split; [done|]).
  intros Hatomic A q. unfold db_read, bind, validate_no_broken_transaction. fields.
  rewrite Hatomic. eauto.
Qed.

(** When every step answers and the receipt reports status 1 the result is
    the confirmed one, with the hash the node returned for the broadcast and
    the block of the receipt; the gas limit passed on is the estimate plus
    50000 capped at 500000, or 250000 when the estimation failed, and a
    failure to record the transaction locally does not change the result. *)
Theorem cast_vote_confirmed (voter_hash_ party_id_ : string) (w : World)
    (a b tx signed txh : string) (n gp nonce : Z) (rc : receipt) :
  contract self = true ->
  account self = Some a ->
  eth_get_block_latest (w3 self) = Returns n ->
  to_bytes (w3 self) voter_hash_ = Returns b ->
  hasVoted (w3 self) b = Returns false ->
  isVotingActive (w3 self) <> Returns false ->
  eth_gas_price (w3 self) = Returns gp ->
  eth_get_transaction_count (w3 self) a = Returns nonce ->
  castVote_build_transaction (w3 self) b party_id_
    (TxParams a
       (match castVote_estimate_gas (w3 self) b party_id_ a with
        | Returns g => Z.min (g + 50000) 500000
        | Raises _ => 250000
        end) gp nonce) = Returns tx ->
  sign_transaction (w3 self) tx (private_key self) = Returns signed ->
  eth_send_raw_transaction (w3 self) signed = Returns txh ->
  eth_wait_for_transaction_receipt (w3 self) txh = Returns rc ->
  receipt_status rc = 1 ->
  (cast_vote_on_blockchain self voter_hash_ party_id_ w).1
  = Returns (CastResult true (Some txh) (Some (blockNumber rc))
               "Vote successfully recorded on blockchain").
Proof.
  intros Hc Ha Hp Hb Hv Hact Hgp Hn Hbuild Hsign Hsend Hwait Hst.
  cbv beta iota delta [cast_vote_on_blockchain cast_vote_body simulated rejected
    test_connection has_voter_voted account_address
    call try_except bind log modify ret raise time_time].
  fields. rewrite Hc, Hp. cbn [negb]. fields. rewrite Hb. fields. rewrite Hv. fields.
  rewrite Ha. fields.
  destruct (isVotingActive (w3 self)) as [[|]|e]; [|done|]; fields;
    (destruct (castVote_estimate_gas (w3 self) b party_id_ a) as [g|e'];
     fields; rewrite Hgp; fields; rewrite Hn; fields;
     change (Z.min (200000 + 50000) 500000) with 250000;
     rewrite Hbuild; fields; rewrite Hsign; fields; rewrite Hsend; fields;
     rewrite Hwait; fields; rewrite Hst; cbn [Z.eqb Pos.eqb negb]; cbv beta;
     match goal with
     | |- context [record_blockchain_transaction ?s ?h ?ty ?r ?md ?x] =>
         destruct (record_blockchain_transaction_spec s h ty r md x) as (o & wr & ? & -> & _)
     end; reflexivity).
Qed.

End Extra.

Section ReadQueries.
Variable self : BlockchainClient.
Variable reads : Reads.

(** The two tally queries never raise and never touch the world; they
    answer 0 when no contract is loaded and when the call raises, which is
    also what an empty ballot box answers. *)
Theorem tally_queries_answer_zero_on_failure (party_id_ : string) (w : World) :
  (exists n, get_vote_count self reads party_id_ w = (Returns n, w))
  /\ (exists n, get_total_votes self reads w = (Returns n, w))
  /\ (contract self = false ->
        get_vote_count self reads party_id_ w = (Returns 0, w)
        /\ get_total_votes self reads w = (Returns 0, w))
  /\ (forall e, getVoteCount reads party_id_ = Raises e ->
        get_vote_count self reads party_id_ w = (Returns 0, w))
  /\ (forall e, getTotalVotes reads = Raises e ->
        get_total_votes self reads w = (Returns 0, w)).
Proof.
  unfold get_vote_count, get_total_votes, try_except, lift, ret.
  split; [|split; [|split; [|split]]].
  - destruct (contract self); cbn; [|eauto].
    destruct (getVoteCount reads party_id_); eauto.
  - destruct (contract self); cbn; [|eauto].
    destruct (getTotalVotes reads); eauto.
  - by intros ->.
  - intros e ->. by destruct (contract self).
  - intros e ->. by destruct (contract self).
Qed.

(** [verify_blockchain_integrity] never raises.  Its score is 0 or 100,
    and the status is success exactly when the score is 100, which takes a
    probe that answers, a complete network report and a connected node. *)
Theorem integrity_score_is_all_or_nothing (w : World) :
  exists rep w',
    verify_blockchain_integrity self reads w = (Returns rep, w')
    /\ db w' = db w
    /\ (integrity_score rep = 0 \/ integrity_score rep = 100)
    /\ (integrity_status rep = "success" <-> integrity_score rep = 100)
    /\ (integrity_score rep = 100 ->
        (exists n, eth_get_block_latest (w3 self) = Returns n)
        /\ (exists c, eth_chain_id (w3 self) = Returns c)
        /\ (exists g s, eth_gas_price (w3 self) = Returns g
                        /\ from_wei_gwei reads g = Returns s)
        /\ is_connected reads = Returns true).
Proof.
  cbv beta iota delta [verify_blockchain_integrity get_network_info test_connection
    call lift try_except bind log modify ret raise time_time].
  fields.
  repeat (branch; fields); subst;
    (eexists _, _; split; [reflexivity|]); fields; cbn;
    repeat match goal with
           | H : negb ?a = _ |- _ => destruct a; cbn in H; try discriminate H; clear H
           end;
    (split; [done|]); (split; [auto|]); (split; [split; [done|try done]|]);
    try (intros [=]); try (intros _; repeat split; eauto).
  all: try (cbn in *; discriminate).
  all: cbn in *; subst; eauto 10.
Qed.

End ReadQueries.

(** A ledger on which everything goes through. *)
Definition client_all_good : BlockchainClient :=
  demo_client true (demo_node (Returns 1) (Returns false) (Returns true) 1).

Definition demo_metadata : string := demo_voter_hash +:+ ",P1".

(** The row the recording writes in an empty database: the network row
    took the first identifier and clock reading, the transaction the
    second ones. *)
Definition recorded_demo_transaction : BlockchainTransaction :=
  MkTransaction "uuid-1" demo_tx_hash "VOTE_CAST" "CONFIRMED" demo_account demo_contract
                (Some 21000) (Some 1) (Some 7) demo_block_hash "uuid-0" demo_metadata
                1000000.

Lemma broadcast_only_after_checks_witness :
  contract client_all_good = true
  /\ (exists n, eth_get_block_latest (w3 client_all_good) = Returns n)
  /\ (exists b, to_bytes (w3 client_all_good) demo_voter_hash = Returns b
                /\ hasVoted (w3 client_all_good) b <> Returns true)
  /\ isVotingActive (w3 client_all_good) <> Returns false.
Proof.
  apply (broadcast_only_after_checks (platform := demo_platform) client_all_good
           demo_voter_hash "P1" (demo_world empty_db)
           (trace (cast_vote_on_blockchain (platform := demo_platform) client_all_good
                     demo_voter_hash "P1" (demo_world empty_db)).2)
           false).
  - symmetry. apply app_nil_r.
  - apply list_elem_of_In. vm_compute. tauto.
Defined.

Lemma recorded_transaction_never_confirmed_witness :
  is_confirmed recorded_demo_transaction = false
  /\ transaction_hash recorded_demo_transaction = demo_tx_hash
  /\ recorded_demo_transaction
     ∈ transactions
         (db (record_blockchain_transaction client_all_good demo_tx_hash "VOTE_CAST"
                (demo_receipt 1) demo_metadata (demo_world empty_db)).2).
Proof.
  apply (recorded_transaction_never_confirmed client_all_good demo_tx_hash "VOTE_CAST"
           demo_metadata (demo_receipt 1) (demo_world empty_db)).
  vm_compute. reflexivity.
Defined.

(** The database after a first recording, seen from inside an [atomic]
    block: the hash is in the table. *)
Definition recorded_world : World :=
  with_connection (MkConnection true false)
    (record_blockchain_transaction client_all_good demo_tx_hash "VOTE_CAST"
       (demo_receipt 1) demo_metadata (demo_world empty_db)).2.

Lemma failed_recording_marks_transaction_witness :
  exists w',
    record_blockchain_transaction client_all_good demo_tx_hash "VOTE_CAST" (demo_receipt 1)
      demo_metadata recorded_world = (Returns None, w')
    /\ db w' = db recorded_world /\ session w' = session recorded_world
    /\ in_atomic_block (connection w') = in_atomic_block (connection recorded_world)
    /\ needs_rollback (connection w') = in_atomic_block (connection recorded_world)
    /\ (in_atomic_block (connection recorded_world) = true ->
        forall A (q : Database -> A), exists e, (db_read q w').1 = Raises e).
Proof.
  apply (failed_recording_marks_transaction client_all_good demo_tx_hash "VOTE_CAST"
           demo_metadata (demo_receipt 1) recorded_world 1337
           (MkNetwork "uuid-0" "default" "http://127.0.0.1:8545" 1337 true 0));
    [reflexivity | reflexivity | vm_compute; reflexivity
    | apply list_elem_of_In; vm_compute; tauto].
Defined.

Lemma cast_vote_confirmed_witness :
  (cast_vote_on_blockchain (platform := demo_platform) client_all_good demo_voter_hash "P1"
     (demo_world empty_db)).1
  = Returns (CastResult true (Some demo_tx_hash) (Some 7)
               "Vote successfully recorded on blockchain").
Proof.
  apply (cast_vote_confirmed (platform := demo_platform) client_all_good demo_voter_hash "P1"
           (demo_world empty_db) demo_account demo_voter_hash "tx" "signed" demo_tx_hash
           1 1 0 (demo_receipt 1));
    first [reflexivity | discriminate].
Defined.

End LedgerExtra.

(** ** Further properties of the audit *)

Module AuditExtra.
Import Models Ledger Ops LedgerFacts AuditFacts.
Local Open Scope Z_scope.

(** The percentage of a run that verified nothing: [0 / total * 100] in
    floating point.  Whatever the divisor, the product is a zero or not a
    number, and so neither above nor at a positive bound. *)
Definition zero_percent (total : Z) : float :=
  PrimFloat.mul (PrimFloat.div (float_of_Z 0) (float_of_Z total)) (float_of_Z 100).

Lemma zero_percent_class (total : Z) :
  (exists s, Prim2SF (zero_percent total) = SpecFloat.S754_zero s)
  \/ Prim2SF (zero_percent total) = SpecFloat.S754_nan.
Proof.
  unfold zero_percent.
  rewrite FloatAxioms.mul_spec, FloatAxioms.div_spec.
  change (Prim2SF (float_of_Z 0)) with (SpecFloat.S754_zero false).
  destruct (Prim2SF (float_of_Z total)) as [s|s| |s m e]; vm_compute; eauto.
Qed.

Lemma zero_percent_not_above (k : Z) :
  (k = 95 \/ k = 80) ->
  forall total, number_gt (PyFloat (zero_percent total)) k = false
                /\ number_ge (PyFloat (zero_percent total)) k = false.
Proof.
  intros Hk total. cbn [number_gt number_ge].
  rewrite FloatAxioms.ltb_spec, FloatAxioms.leb_spec.
  destruct (zero_percent_class total) as [[s ->]| ->];
    destruct Hk as [-> | ->]; by vm_compute.
Qed.

Section Extra.
Variable self : BlockchainClient.

(** The report of a run on a connection that answers. *)
Lemma audit_run (w : World) :
  needs_rollback (connection w) = false ->
  let total := Z.of_nat (length (vote_records (db w))) in
  let pct := if 0 <? total then PyFloat (zero_percent total) else PyInt 100 in
  (audit_vote_integrity self w).1
  = Returns (AuditReport total 0 (count has_transaction (vote_records (db w))) pct
               (if number_gt pct 95 then "success" else "warning")
               (Some (int_of_time (clock w (ticks w)))) None).
Proof.
  intros Hlive total pct.
  unfold audit_vote_integrity, try_except, bind at 1, db_read, bind at 1,
    validate_no_broken_transaction.
  rewrite Hlive. unfold gets, bind at 1.
  destruct (audit_loop_counts self (vote_records (db w)) 0 0 w)
    as (w' & -> & _ & _ & Hti & Hcl).
  unfold bind, time_time, ret. cbn [fst snd]. rewrite Hti, Hcl. reflexivity.
Qed.

(** Whatever the ledger holds, a run on a connection that answers
    verifies no record: the total is the number of stored records, the
    verified count is 0, the failed count is the number of records with a
    ledger reference, the percentage is the float [0 / total * 100] (the
    int 100 for an empty table), and the status is success for an empty
    table and a warning otherwise. *)
Theorem audit_tally_is_exact (w : World) :
  needs_rollback (connection w) = false ->
  let total := Z.of_nat (length (vote_records (db w))) in
  (audit_vote_integrity self w).1
  = Returns (AuditReport total 0 (count has_transaction (vote_records (db w)))
               (if 0 <? total then PyFloat (zero_percent total) else PyInt 100)
               (if 0 <? total then "warning" else "success")
               (Some (int_of_time (clock w (ticks w)))) None).
Proof.
  intros Hlive total. rewrite (audit_run w Hlive). fold total.
  destruct (0 <? total); [|done].
  by rewrite (proj1 (zero_percent_not_above 95 (or_introl eq_refl) total)).
Qed.

(** A stored record whose ledger event matches (the verification asked
    with the party identifier as text answers [True]) is still counted as
    failed: the run verifies nothing, reports a warning, and the command
    calls the result poor. *)
Theorem audit_fails_record_the_ledger_confirms (w : World) (r : VoteRecord)
    (t : BlockchainTransaction) (rc : receipt) (evs : list (string * string)) :
  needs_rollback (connection w) = false ->
  r ∈ vote_records (db w) ->
  blockchain_transaction r = Some t ->
  contract self = true ->
  eth_get_transaction_receipt (w3 self) (transaction_hash t) = Returns rc ->
  receipt_status rc = 1 ->
  VoteCast_process_receipt (w3 self) rc = Returns evs ->
  (voter_hash r, uuid_str (record_party_id r)) ∈ evs ->
  ledger_event_matches self w r = true
  /\ exists rep,
       (audit_vote_integrity self w).1 = Returns rep
       /\ verified_count rep = 0
       /\ 1 <= failed_count rep
       /\ audit_status rep = "warning"
       /\ audit_integrity_band rep = Poor.
Proof.
  intros Hlive Hin Ht Hc Hrc Hst Hev Hmatch. split.
  - unfold ledger_event_matches. rewrite Ht.
    cbv beta iota delta [verify_vote_on_blockchain str_eq call try_except bind log modify
      ret raise].
    rewrite Hrc. fields. rewrite Hst. cbn [Z.eqb Pos.eqb negb]. rewrite Hc. fields.
    rewrite Hev. fields.
    apply existsb_exists. exists (voter_hash r, uuid_str (record_party_id r)).
    split; [by apply list_elem_of_In|]. cbn. by rewrite !bool_decide_eq_true_2.
  - assert (0 < Z.of_nat (length (vote_records (db w)))) as Hpos.
    { destruct (vote_records (db w)); [by apply elem_of_nil in Hin|cbn; lia]. }
    apply Z.ltb_lt in Hpos as Hpos'.
    destruct (zero_percent_not_above 95 (or_introl eq_refl)
                (Z.of_nat (length (vote_records (db w))))) as [Hgt Hge].
    destruct (zero_percent_not_above 80 (or_intror eq_refl)
                (Z.of_nat (length (vote_records (db w))))) as [_ Hge'].
    pose proof (audit_run w Hlive) as Hrun. cbv zeta in Hrun.
    rewrite Hpos', Hgt in Hrun.
    eexists. split; [exact Hrun|].
    cbn [verified_count failed_count audit_status].
    split; [done|]. split; [|split; [done|]].
    + clear - Hin Ht. induction (vote_records (db w)) as [|x rs IH];
        [by apply elem_of_nil in Hin|].
      rewrite count_cons. apply elem_of_cons in Hin as [<-|Hin].
      * unfold has_transaction at 1. rewrite Ht. unfold count. lia.
      * specialize (IH Hin). destruct (has_transaction x); lia.
    + unfold audit_integrity_band. cbn [integrity_percentage]. by rewrite Hge, Hge'.
Qed.

Lemma float_lt_le (x y : float) : PrimFloat.ltb x y = true -> PrimFloat.leb x y = true.
Proof.
  rewrite FloatAxioms.ltb_spec, FloatAxioms.leb_spec.
  unfold SpecFloat.SFltb, SpecFloat.SFleb.
  by destruct (SpecFloat.SFcompare _ _) as [[ | | ]|].
Qed.

(** The report's own status and the bands of the management command agree
    in one direction: a report tagged success is in the excellent band, and
    the error report is in the poor band. *)
Theorem audit_status_and_band (w : World) (rep : audit_report) :
  (audit_vote_integrity self w).1 = Returns rep ->
  (audit_status rep = "success" -> audit_integrity_band rep = Excellent)
  /\ (audit_status rep = "error" -> audit_integrity_band rep = Poor).
Proof.
  unfold audit_vote_integrity, try_except, bind at 1, db_read, bind at 1,
    validate_no_broken_transaction.
  destruct (needs_rollback (connection w)).
  { cbn. intros [= <-]. split; [discriminate|reflexivity]. }
  unfold gets, bind at 1.
  destruct (audit_loop self (vote_records (db w)) 0 0 w) as [[counts|e] w1].
  - unfold bind, time_time, ret. cbn [fst]. intros [= <-]. cbn.
    unfold audit_integrity_band. cbn.
    match goal with
    | |- context [number_gt ?p 95] => destruct (number_gt p 95) eqn:Hgt; set (pct := p) in *
    end.
    + split; [intros _|discriminate].
      assert (number_ge pct 95 = true) as ->; [|done].
      destruct pct as [z|x]; cbn in *.
      * apply Z.ltb_lt in Hgt. apply Z.leb_le. lia.
      * by apply float_lt_le.
    + split; discriminate.
  - cbn. intros [= <-]. split; [discriminate|reflexivity].
Qed.

End Extra.

(** Two stored records: the ledger event of the first matches, that of
    the second is another voter's. *)
Definition two_records : Database :=
  MkDatabase [] [] [] [] [] [] [scenario_record 0; scenario_record 97].

Lemma audit_tally_is_exact_witness :
  (audit_vote_integrity scenario_client (demo_world two_records)).1
  = Returns (AuditReport 2 0 2 (PyFloat 0%float) "warning" (Some 0) None).
Proof.
  rewrite (audit_tally_is_exact scenario_client (demo_world two_records) eq_refl).
  vm_compute. reflexivity.
Defined.

Lemma audit_fails_record_the_ledger_confirms_witness :
  ledger_event_matches scenario_client (demo_world two_records) (scenario_record 0) = true
  /\ exists rep,
       (audit_vote_integrity scenario_client (demo_world two_records)).1 = Returns rep
       /\ verified_count rep = 0
       /\ 1 <= failed_count rep
       /\ audit_status rep = "warning"
       /\ audit_integrity_band rep = Poor.
Proof.
  apply (audit_fails_record_the_ledger_confirms scenario_client (demo_world two_records)
           (scenario_record 0)
           (MkTransaction "transaction-0" (scenario_tx_hash 0) "VOTE_CAST" "CONFIRMED"
              demo_account demo_contract (Some 21000) (Some 1) (Some 0) demo_block_hash
              "network-0" "" 0)
           (Receipt 1 (Some demo_account) (Some demo_contract) (Some 21000) (Some 1) 0
                    (Some demo_block_hash))
           [(scenario_voter_hash 0, uuid_str scenario_party)]);
    try reflexivity.
  - apply list_elem_of_In. left. reflexivity.
  - apply list_elem_of_In. left. reflexivity.
Defined.

Lemma audit_status_and_band_witness :
  (audit_status (AuditReport 0 0 0 (PyInt 100) "success" (Some 0) None) = "success" ->
   audit_integrity_band (AuditReport 0 0 0 (PyInt 100) "success" (Some 0) None) = Excellent)
  /\ (audit_status (AuditReport 0 0 0 (PyInt 100) "success" (Some 0) None) = "error" ->
      audit_integrity_band (AuditReport 0 0 0 (PyInt 100) "success" (Some 0) None) = Poor).
Proof.
  apply (audit_status_and_band scenario_client (demo_world empty_db)).
  vm_compute. reflexivity.
Defined.

End AuditExtra.

(** ** What the declared constraints of the vote table do guarantee *)

Module ModelsExtra.
Import Models ModelsFacts.
Local Open Scope Z_scope.

(** The table satisfies its declared constraints: primary keys differ,
    transaction hashes that are present differ, and no (voter, party) pair
    occurs twice. *)
Definition constraints_hold (vs : list Vote) : Prop :=
  NoDup (map vote_pk vs)
  /\ NoDup (omap blockchain_hash vs)
  /\ NoDup (map (fun v => (voter v, political_party v)) vs).

Lemma no_conflict_spec (v : Vote) (vs : list Vote) :
  existsb (vote_conflict v) vs = false ->
  (vote_pk v ∉ map vote_pk vs)
  /\ (forall h, blockchain_hash v = Some h -> h ∉ omap blockchain_hash vs)
  /\ (voter v, political_party v) ∉ map (fun o => (voter o, political_party o)) vs.
Proof.
  induction vs as [|o vs IH]; cbn.
  - intros _. repeat split; try intros h _; apply not_elem_of_nil.
  - intros Hex. apply orb_false_elim in Hex as [Ho Hvs].
    destruct (IH Hvs) as (Hpk & Hh & Hp).
    unfold vote_conflict in Ho.
    apply orb_false_elim in Ho as [Ho Hpair]. apply orb_false_elim in Ho as [Hkey Hhash].
    apply bool_decide_eq_false_1 in Hkey.
    split; [|split].
    + apply not_elem_of_cons. split; [congruence|done].
    + intros h Hv. rewrite Hv in Hhash. apply bool_decide_eq_false_1 in Hhash.
      destruct (blockchain_hash o) as [ho|] eqn:Hbo; cbn; [|by apply Hh].
      apply not_elem_of_cons. split; [congruence|by apply Hh].
    + apply not_elem_of_cons. split; [|done].
      apply andb_false_iff in Hpair as [H1|H2].
      * apply bool_decide_eq_false_1 in H1. congruence.
      * apply bool_decide_eq_false_1 in H2. congruence.
Qed.

(** [Vote.objects.create] keeps the declared constraints: a refused insert
    leaves the table as it was, an accepted one appends the row, and the
    table still has distinct keys, distinct hashes and at most one row for
    every (voter, party) pair. *)
Theorem insert_keeps_declared_constraints (v : Vote) (d : Database) :
  constraints_hold (votes d) ->
  constraints_hold (votes (Vote_insert v d).2)
  /\ (forall e, (Vote_insert v d).1 = Raises e -> (Vote_insert v d).2 = d)
  /\ (forall v', (Vote_insert v d).1 = Returns v' ->
        v' = v /\ votes (Vote_insert v d).2 = votes d ++ [v]).
Proof.
  intros (Hpk & Hh & Hp). unfold Vote_insert.
  destruct (existsb (vote_conflict v) (votes d)) eqn:Hex; cbn [fst snd].
  - split; [done|]. split; [done|discriminate].
  - destruct (no_conflict_spec v (votes d) Hex) as (Npk & Nh & Np).
    split; [|split; [discriminate|by intros v' [= <-]]].
    cbn. unfold constraints_hold. rewrite !map_app, omap_app. cbn.
    split; [|split].
    + apply NoDup_app. split; [done|]. split; [|apply NoDup_singleton].
      intros x Hx Hx'. apply list_elem_of_singleton in Hx'. by subst.
    + destruct (blockchain_hash v) as [h|] eqn:Hv; cbn; [|by rewrite app_nil_r].
      apply NoDup_app. split; [done|]. split; [|apply NoDup_singleton].
      intros x Hx Hx'. apply list_elem_of_singleton in Hx'. subst. by apply (Nh h).
    + apply NoDup_app. split; [done|]. split; [|apply NoDup_singleton].
      intros x Hx Hx'. apply list_elem_of_singleton in Hx'. by subst.
Qed.

Lemma insert_keeps_declared_constraints_witness :
  constraints_hold (votes (Vote_insert second_vote one_vote_db).2)
  /\ (Vote_insert repeated_vote one_vote_db).2 = one_vote_db.
Proof.
  assert (constraints_hold (votes one_vote_db)) as H.
  { repeat split; cbn; apply NoDup_singleton. }
  split.
  - exact (proj1 (insert_keeps_declared_constraints second_vote one_vote_db H)).
  - exact (proj1 (proj2 (insert_keeps_declared_constraints repeated_vote one_vote_db H))
             _ eq_refl).
Defined.

End ModelsExtra.

(** ** Further properties of the submission coordinator *)

Module ViewsExtra.
Import Models Ledger Views LedgerFacts ViewsFacts LedgerExtra.
Local Open Scope Z_scope.

(** The voter row as [voter.save()] leaves the table. *)
Definition save_voter (v : Voter) (vs : list Voter) : list Voter :=
  map (fun x => if bool_decide (voter_pk x = voter_pk v) then mark_voted v else x) vs.

(** The session once the view has cleared the verification keys. *)
Definition cleared (s : gmap string string) : gmap string string :=
  delete "verification_timestamp" (delete "verified_voter_email" s).

Section Extra.
Context {platform : Platform}.

(** The three ways the block under [transaction.atomic()] can end. *)
Inductive block_outcome (request : HttpRequest) (voter_ : Voter) (party : PoliticalParty)
    (w1 : World) : result JsonResponse -> World -> Prop :=
  | BlockRejected m w' :
      db w' = db w1 -> session w' = session w1 ->
      block_outcome request voter_ party w1 (Returns (failed m)) w'
  | BlockRolledBack e w' :
      db w' = db w1 -> session w' = session w1 ->
      block_outcome request voter_ party w1 (Raises e) w'
  | BlockCommitted vote w' :
      voter vote = voter_pk voter_ ->
      political_party vote = party_pk party ->
      ip_address vote = get_client_ip request ->
      votes (db w') = votes (db w1) ++ [vote] ->
      voters (db w') = save_voter voter_ (voters (db w1)) ->
      session w' = cleared (session w1) ->
      block_outcome request voter_ party w1
        (Returns (MkResponse true "Vote cast successfully!" (Some (vote_pk vote))
                    (blockchain_hash vote) (Some (voted_at vote))
                    (Some (party_name party))))
        w'.

Ltac block_step :=
  match goal with
  | |- context [create_vote_record ?s ?a ?b ?c ?x] =>
      let Ht := fresh "Hcr_trace" in
      let Hn := fresh "Hcr_events" in
      let Hs := fresh "Hcr_session" in
      let Hd := fresh "Hcr_db" in
      let Hc := fresh "Hcr_connection" in
      destruct (create_vote_record_events s a b c x) as (? & ? & ? & -> & Ht & Hn & Hs & Hd & Hc);
      fields_hyps; rewrite ?Hc
  | _ => branch
  end.

Lemma cast_and_commit_outcome (client : BlockchainClient) request voter_ party voter_hash_ w1 :
  exists out w',
    atomic (cast_and_commit (Some client) request voter_ party voter_hash_) w1 = (out, w')
    /\ block_outcome request voter_ party w1 out w'.
Proof.
  unfold atomic, cast_and_commit, the_client. cbv zeta.
  unfold bind at 1, ret at 1. unfold bind at 1.
  match goal with
  | |- context [cast_vote_on_blockchain ?c ?vh ?p ?x] =>
      destruct (cast_vote_on_blockchain_spec c vh p x)
        as (r & w2 & -> & Hs & Hvotes & Hvoters & _ & _ & Hrej)
  end.
  fields_hyps.
  destruct (success r) eqn:Hok; cbn [negb].
  - cbv beta iota delta [bind uuid4 time_time db_write db_exec Vote_insert Voter_save
      validate_no_broken_transaction mark_for_rollback_on_error session_pop
      log modify ret].
    fields.
    repeat (block_step; fields; known; fields).
    all: eexists _, _; (split; [reflexivity|]).
    all: try (constructor; fields; done).
    all: match goal with
         | |- block_outcome _ _ _ _ (Returns (MkResponse _ _ (Some (vote_pk ?v)) _ _ _)) _ =>
             apply (BlockCommitted request voter_ party w1 v)
         end; fields; rewrite ?Hcr_db, ?Hcr_session; cbn; try done.
    all: first [by rewrite Hvotes | by rewrite Hvoters | by rewrite Hs].
  - unfold ret. destruct (Hrej eq_refl) as [Hd _].
    destruct (needs_rollback (connection w2)); fields.
    all: eexists _, _; (split; [reflexivity|]); constructor; fields; done.
Qed.

Variable blockchain_client : option BlockchainClient.

Ltac view_step :=
  match goal with
  | |- context [Voter_get ?e ?x] =>
      let H := fresh "Hvoter" in
      let rv := fresh "rv" in
      let wv := fresh "wv" in
      destruct (Voter_get e x) as [rv wv] eqn:H;
      pose proof (Voter_get_reads _ _ _ _ H); subst wv; destruct rv
  | |- context [PoliticalParty_get ?p ?x] =>
      let H := fresh "Hparty" in
      let rv := fresh "rp" in
      let wv := fresh "wp" in
      destruct (PoliticalParty_get p x) as [rv wv] eqn:H;
      pose proof (PoliticalParty_get_reads _ _ _ _ H); subst wv; destruct rv
  | |- context [has_voter_voted ?c ?vh ?x] =>
      let Hh := fresh "Hcalls" in
      destruct (has_voter_voted_total c vh x) as (? & ? & -> & Hh)
  | |- context [atomic (cast_and_commit (Some ?c) ?rq ?v ?p ?vh) ?x] =>
      let Ho := fresh "Hblock" in
      destruct (cast_and_commit_outcome c rq v p vh x) as (? & ? & -> & Ho)
  | _ => branch
  end.

(** How a request ends: refused with nothing changed, or committed. *)
Inductive post_outcome (request : HttpRequest) (w : World) : JsonResponse -> World -> Prop :=
  | PostRefused m w' :
      db w' = db w -> session w' = session w ->
      post_outcome request w (failed m) w'
  | PostCommitted e pid voter_ party vote w' :
      session w !! "verified_voter_email" = Some e ->
      body request = JsonObject (Some pid) ->
      Voter_get e w = (Returns voter_, w) ->
      PoliticalParty_get pid w = (Returns party, w) ->
      votes_of (voter_pk voter_) (db w) = [] ->
      voter vote = voter_pk voter_ ->
      political_party vote = party_pk party ->
      votes (db w') = votes (db w) ++ [vote] ->
      voters (db w') = save_voter voter_ (voters (db w)) ->
      session w' = cleared (session w) ->
      post_outcome request w
        (MkResponse true "Vote cast successfully!" (Some (vote_pk vote))
           (blockchain_hash vote) (Some (voted_at vote)) (Some (party_name party)))
        w'.

Lemma post_ends request w :
  exists resp w',
    post blockchain_client request w = (Returns resp, w')
    /\ post_outcome request w resp w'.
Proof.
  cbv beta iota delta [post try_except try_except_on bind read_party_id session_get gets
    db_read validate_no_broken_transaction the_client ret raise time_time].
  fields.
  repeat (view_step; fields; cbn [exn_cls]; classes; known; fields).
  all: eexists _, _; (split; [reflexivity|]).
  all: try (by constructor).
  all: inversion Hblock; subst; fields; try (by constructor).
  all: match goal with
       | Hv : Voter_get ?e _ = (Returns ?v, _), Hp : PoliticalParty_get ?pid _ = (Returns ?p, _)
         |- post_outcome _ _ (MkResponse _ _ (Some (vote_pk ?vt)) _ _ _) _ =>
           apply (PostCommitted request w e pid v p vt)
       end; fields; try done.
  all: match goal with
       | H : negb (bool_decide (votes_of _ _ = [])) = false |- _ =>
           apply negb_false_iff in H; by apply bool_decide_eq_true_1 in H
       end.
Qed.

(** A request that is answered without success has changed neither the
    database nor the session: whatever went wrong, before, at or after the
    ledger, nothing of the vote is kept locally. *)
Theorem refused_request_changes_nothing (request : HttpRequest) (w w' : World)
    (resp : JsonResponse) :
  post blockchain_client request w = (Returns resp, w') ->
  response_success resp = false ->
  db w' = db w /\ session w' = session w.
Proof.
  intros Hpost Hfail.
  destruct (post_ends request w) as (resp0 & w0 & E & Hout).
  rewrite E in Hpost. injection Hpost as <- <-.
  by inversion Hout; subst.
Qed.

(** A request answered with success was made in a session verified for an
    active voter who had no vote, for an active party; it appended exactly
    one vote row, for that voter and party and with the identifier and hash
    the response shows, marked the voter as having voted and removed the
    verification keys from the session. *)
Theorem accepted_request_commits_one_vote (request : HttpRequest) (w w' : World)
    (resp : JsonResponse) :
  post blockchain_client request w = (Returns resp, w') ->
  response_success resp = true ->
  exists e pid voter_ party vote,
    session w !! "verified_voter_email" = Some e
    /\ body request = JsonObject (Some pid)
    /\ Voter_get e w = (Returns voter_, w)
    /\ PoliticalParty_get pid w = (Returns party, w)
    /\ votes_of (voter_pk voter_) (db w) = []
    /\ voter vote = voter_pk voter_
    /\ political_party vote = party_pk party
    /\ response_vote_id resp = Some (vote_pk vote)
    /\ response_blockchain_hash resp = blockchain_hash vote
    /\ votes (db w') = votes (db w) ++ [vote]
    /\ voters (db w') = save_voter voter_ (voters (db w))
    /\ session w' = cleared (session w).
Proof.
  intros Hpost Hok.
  destruct (post_ends request w) as (resp0 & w0 & E & Hout).
  rewrite E in Hpost. injection Hpost as <- <-.
  inversion Hout; subst; [discriminate|].
  eexists _, _, _, _, _. repeat split; eassumption.
Qed.

(** Requests served one after the other never give a voter a second row:
    if no voter has more than one vote before a request, none has after. *)
Theorem post_keeps_one_vote_per_voter (request : HttpRequest) (w : World) :
  (forall x, (vote_count_of x (db w) <= 1)%nat) ->
  forall x, (vote_count_of x (db (post blockchain_client request w).2) <= 1)%nat.
Proof.
  intros Hinv x.
  destruct (post_ends request w) as (resp & w' & -> & Hout). cbn [snd].
  inversion Hout as [m w0 Hdb _|e pid v p vote w0 _ _ _ _ Hnone Hv _ Hvotes _ _]; subst.
  - rewrite Hdb. apply Hinv.
  - unfold vote_count_of, votes_of in *. rewrite Hvotes, filter_app, length_app.
    destruct (decide (x = voter_pk v)) as [->|Hne].
    + rewrite Hnone. cbn. case_decide; cbn; lia.
    + specialize (Hinv x). cbn. rewrite decide_False by congruence. cbn. lia.
Qed.

End Extra.

Section Degraded.
Context {platform : Platform}.

Lemma fresh_vote_is_accepted (v : Vote) (vs : list Vote) :
  Forall (fun old => vote_pk old <> vote_pk v
                     /\ blockchain_hash old <> blockchain_hash v
                     /\ voter old <> voter v) vs ->
  existsb (vote_conflict v) vs = false.
Proof.
  induction 1 as [|old vs (Hpk & Hh & Hv) _ IH]; [done|]. cbn. rewrite IH.
  unfold vote_conflict.
  rewrite (bool_decide_eq_false_2 (vote_pk old = vote_pk v)) by done.
  rewrite (bool_decide_eq_false_2 (voter old = voter v)) by done.
  destruct (blockchain_hash v) as [h|]; [|done].
  by rewrite bool_decide_eq_false_2.
Qed.

Lemma no_votes_of (x : string) (vs : list Vote) :
  filter (fun o => voter o = x) vs = [] -> Forall (fun o => voter o <> x) vs.
Proof.
  induction vs as [|o vs IH]; [constructor|]. rewrite filter_cons.
  case_decide; [done|]. intros Hf. constructor; [done|by apply IH].
Qed.

(** With no contract loaded the election goes on: a verified voter without
    a vote, naming an active party while a voting session is open, gets the
    vote committed under the placeholder hash, provided the fresh primary
    key and the placeholder hash are not taken. *)
Theorem vote_is_committed_without_contract
    (client : BlockchainClient) (request : HttpRequest) (w : World)
    (e pid : string) (voter_ : Voter) (party : PoliticalParty) (open : VotingSession) :
  contract client = false ->
  body request = JsonObject (Some pid) -> truthy pid = true ->
  session w !! "verified_voter_email" = Some e -> truthy e = true ->
  Voter_get e w = (Returns voter_, w) ->
  PoliticalParty_get pid w = (Returns party, w) ->
  votes_of (voter_pk voter_) (db w) = [] ->
  head (filter (fun s => session_is_active s = true
                         /\ start_time s <= clock w (ticks w)
                         /\ clock w (S (ticks w)) <= end_time s)
               (voting_sessions (db w))) = Some open ->
  let placeholder :=
    "0x" +:+ sha256_hexdigest
               (generate_voter_hash client (email voter_) (aadhaar_number voter_)
                  (voter_pk voter_)
                +:+ party_id party +:+ str_of_time (clock w (2 + ticks w))) in
  Forall (fun old => vote_pk old <> uuid_source w (uuids_drawn w)
                     /\ blockchain_hash old <> Some placeholder) (votes (db w)) ->
  (post (Some client) request w).1
  = Returns (MkResponse true "Vote cast successfully!"
               (Some (uuid_source w (uuids_drawn w))) (Some placeholder)
               (Some (clock w (4 + ticks w))) (Some (party_name party)))
  /\ votes_of (voter_pk voter_) (db (post (Some client) request w).2)
     = [MkVote (uuid_source w (uuids_drawn w)) (voter_pk voter_) (party_pk party)
          (Some placeholder)
          (Some (int_of_time (clock w (3 + ticks w)) `mod` 1000000))
          (clock w (4 + ticks w)) true (get_client_ip request)].
Proof.
  intros Hc Hbody Hpid Hs He Hv Hp Hnone Hopen placeholder Hfresh.
  assert (bool_decide (votes_of (voter_pk voter_) (db w) = []) = true) as Hb
    by (by apply bool_decide_eq_true_2).
  pose proof (Voter_get_live _ _ _ _ Hv) as Hlive.
  cbv beta iota delta [post try_except try_except_on bind read_party_id session_get gets
    db_read validate_no_broken_transaction the_client ret raise time_time has_voter_voted].
  rewrite Hbody, Hs, He, Hpid. cbn [negb]. rewrite Hv, Hp. fields. rewrite Hlive, Hb, Hc.
  cbn [negb]. fields. rewrite Hlive. fields. rewrite Hopen.
  cbv beta iota zeta delta [atomic cast_and_commit the_client cast_vote_on_blockchain
    cast_vote_body simulated try_except bind log modify ret time_time uuid4
    db_write db_exec validate_no_broken_transaction mark_for_rollback_on_error Vote_insert].
  fields. rewrite Hc, Hlive, andb_false_r. cbn [negb]. fields.
  cbn [success negb result_transaction_hash result_block_number]. fields.
  rewrite fresh_vote_is_accepted.
  2: { cbn [vote_pk blockchain_hash voter].
       pose proof (no_votes_of _ _ Hnone) as Hvs.
       rewrite Forall_forall in Hfresh, Hvs. apply Forall_forall. intros old Hin.
       destruct (Hfresh old Hin) as [H1 H2]. specialize (Hvs old Hin). done. }
  fields. cbv beta iota delta [Voter_save modify]. fields.
  match goal with
  | |- context [create_vote_record ?s ?a ?b ?c ?x] =>
      destruct (create_vote_record_events s a b c x)
        as (o & w3 & evs & -> & _ & _ & Hs3 & Hdb3 & Hc3)
  end.
  cbv beta iota delta [session_pop modify with_session]. fields. rewrite Hc3. fields.
  split; [reflexivity|].
  rewrite Hdb3. cbn. unfold votes_of in *. rewrite filter_app, Hnone. cbn.
  by rewrite decide_True.
Qed.

(** A vote that the ledger accepted, but whose transaction could not be
    recorded locally because its hash is already in the table, is refused:
    the failed INSERT marks the transaction, the INSERT of the vote cannot
    run, the block is rolled back and the view answers with the general
    error.  The vote stays on the ledger. *)
Theorem vote_is_refused_when_recording_fails
    (client : BlockchainClient) (request : HttpRequest) (w : World)
    (e pid : string) (voter_ : Voter) (party : PoliticalParty) (open : VotingSession)
    (a b tx signed txh : string) (n gp nonce chain : Z) (rc : receipt)
    (net : BlockchainNetwork) :
  body request = JsonObject (Some pid) -> truthy pid = true ->
  session w !! "verified_voter_email" = Some e -> truthy e = true ->
  Voter_get e w = (Returns voter_, w) ->
  PoliticalParty_get pid w = (Returns party, w) ->
  votes_of (voter_pk voter_) (db w) = [] ->
  head (filter (fun s => session_is_active s = true
                         /\ start_time s <= clock w (ticks w)
                         /\ clock w (S (ticks w)) <= end_time s)
               (voting_sessions (db w))) = Some open ->
  let voter_hash_ :=
    generate_voter_hash client (email voter_) (aadhaar_number voter_) (voter_pk voter_) in
  contract client = true ->
  account client = Some a ->
  eth_get_block_latest (w3 client) = Returns n ->
  to_bytes (w3 client) voter_hash_ = Returns b ->
  hasVoted (w3 client) b = Returns false ->
  isVotingActive (w3 client) <> Returns false ->
  eth_gas_price (w3 client) = Returns gp ->
  eth_get_transaction_count (w3 client) a = Returns nonce ->
  castVote_build_transaction (w3 client) b (party_id party)
    (TxParams a
       (match castVote_estimate_gas (w3 client) b (party_id party) a with
        | Returns g => Z.min (g + 50000) 500000
        | Raises _ => 250000
        end) gp nonce) = Returns tx ->
  sign_transaction (w3 client) tx (private_key client) = Returns signed ->
  eth_send_raw_transaction (w3 client) signed = Returns txh ->
  eth_wait_for_transaction_receipt (w3 client) txh = Returns rc ->
  receipt_status rc = 1 ->
  eth_chain_id (w3 client) = Returns chain ->
  filter (fun x => network_name x = "default") (networks (db w)) = [net] ->
  txh ∈ map transaction_hash (transactions (db w)) ->
  (post (Some client) request w).1
  = Returns (failed "An error occurred while casting your vote. Please try again.")
  /\ db (post (Some client) request w).2 = db w
  /\ session (post (Some client) request w).2 = session w
  /\ LibCall SendRawTransaction false ∈ trace (post (Some client) request w).2.
Proof.
  intros Hbody Hpid Hs He Hv Hp Hnone Hopen voter_hash_ Hc Ha Hprobe Hb Hvoted Hact Hgp
    Hnonce Hbuild Hsign Hsend Hwait Hst Hchain Hnet Htaken.
  assert (bool_decide (votes_of (voter_pk voter_) (db w) = []) = true) as Hnv
    by (by apply bool_decide_eq_true_2).
  pose proof (Voter_get_live _ _ _ _ Hv) as Hlive.
  cbv beta iota delta [post try_except try_except_on bind read_party_id session_get gets
    db_read validate_no_broken_transaction the_client ret raise time_time has_voter_voted
    call log modify].
  rewrite Hbody, Hs, He, Hpid. cbn [negb]. rewrite Hv, Hp. fields. rewrite Hlive, Hnv, Hc.
  cbn [negb]. fold voter_hash_. rewrite Hb. fields. rewrite Hvoted. fields.
  rewrite Hlive. fields. rewrite Hopen.
  cbv beta iota zeta delta [atomic cast_and_commit the_client cast_vote_on_blockchain
    cast_vote_body rejected test_connection has_voter_voted account_address
    try_except bind call log modify ret raise].
  fields. rewrite Hc, Hprobe, Hlive, andb_false_r. cbn [negb]. fields.
  rewrite Hb. fields. rewrite Hvoted. fields. rewrite Ha. fields.
  destruct (isVotingActive (w3 client)) as [[|]|ex]; [|done|]; fields;
    (destruct (castVote_estimate_gas (w3 client) b (party_id party) a) as [g|e'];
     fields; rewrite Hgp; fields; rewrite Hnonce; fields;
     change (Z.min (200000 + 50000) 500000) with 250000;
     rewrite Hbuild; fields; rewrite Hsign; fields; rewrite Hsend; fields;
     rewrite Hwait; fields; rewrite Hst; cbn [Z.eqb Pos.eqb negb]; cbv beta;
     rewrite (recording_refused client _ _ _ _ _ chain net) by (fields; done);
     fields; cbn [success negb];
     cbv beta iota delta [bind uuid4 time_time db_write db_exec
       validate_no_broken_transaction ret];
     fields; cbn [exn_cls]; classes; cbv iota; fields;
     (split; [reflexivity|]); (split; [reflexivity|]); (split; [reflexivity|]);
     apply list_elem_of_In; cbn; tauto).
Qed.

End Degraded.

Definition committed_response : JsonResponse :=
  MkResponse true "Vote cast successfully!" (Some "uuid-2") (Some demo_tx_hash)
             (Some 4000000) (Some "Party A").

Lemma refused_request_changes_nothing_witness :
  db (post (platform := demo_platform) (Some client_reverting) ballot election_world).2
    = db election_world
  /\ session (post (platform := demo_platform) (Some client_reverting) ballot
                election_world).2
     = session election_world.
Proof.
  apply (refused_request_changes_nothing (platform := demo_platform) (Some client_reverting)
           ballot election_world _
           (failed "Blockchain vote failed: Blockchain transaction failed"));
    [vm_compute; reflexivity | reflexivity].
Defined.

Lemma accepted_request_commits_one_vote_witness :
  exists e pid voter_ party vote,
    session election_world !! "verified_voter_email" = Some e
    /\ body ballot = JsonObject (Some pid)
    /\ Voter_get e election_world = (Returns voter_, election_world)
    /\ PoliticalParty_get pid election_world = (Returns party, election_world)
    /\ votes_of (voter_pk voter_) (db election_world) = []
    /\ voter vote = voter_pk voter_
    /\ political_party vote = party_pk party
    /\ response_vote_id committed_response = Some (vote_pk vote)
    /\ response_blockchain_hash committed_response = blockchain_hash vote
    /\ votes (db after_first_vote) = votes (db election_world) ++ [vote]
    /\ voters (db after_first_vote) = save_voter voter_ (voters (db election_world))
    /\ session after_first_vote = cleared (session election_world).
Proof.
  apply (accepted_request_commits_one_vote (platform := demo_platform)
           (Some client_accepting) ballot election_world after_first_vote
           committed_response);
    [vm_compute; reflexivity | reflexivity].
Defined.

Lemma post_keeps_one_vote_per_voter_witness :
  (vote_count_of "voter-1" (db after_first_vote) <= 1)%nat.
Proof.
  apply (post_keeps_one_vote_per_voter (platform := demo_platform) (Some client_accepting)
           ballot election_world).
  intros x. cbn. lia.
Defined.

(** The placeholder hash of the example: the digest of the voter hash,
    the party and the third clock reading. *)
Definition demo_placeholder : string :=
  "0x" +:+ demo_digest
             (generate_voter_hash (platform := demo_platform) client_no_contract
                "asha@example.org" "123412341234" "voter-1"
              +:+ "PA" +:+ "2000000").

Lemma vote_is_committed_without_contract_witness :
  (post (platform := demo_platform) (Some client_no_contract) ballot election_world).1
  = Returns (MkResponse true "Vote cast successfully!" (Some "uuid-0")
               (Some demo_placeholder) (Some 4000000) (Some "Party A")).
Proof.
  assert (Forall (fun old : Vote =>
                    vote_pk old <> uuid_source election_world (uuids_drawn election_world)
                    /\ blockchain_hash old <> Some demo_placeholder)
                 (votes (db election_world))) as Hfresh by constructor.
  exact (proj1 (vote_is_committed_without_contract (platform := demo_platform)
                  client_no_contract ballot election_world
                  "asha@example.org" "PA" asha party_a
                  (MkVotingSession true 0 3600000000)
                  eq_refl eq_refl eq_refl eq_refl eq_refl eq_refl eq_refl eq_refl eq_refl
                  Hfresh)).
Defined.

(** A second voter on a node that answers every broadcast with the same
    transaction hash: the first vote is recorded, the recording of the
    second is refused. *)
Definition ravi : Voter :=
  MkVoter "voter-2" "Ravi" "ravi@example.org" "432143214321" true false.

Definition two_voter_world : World :=
  with_db (MkDatabase [asha; ravi] [party_a] [] [MkVotingSession true 0 3600000000] [] [] [])
          election_world.

Definition ravi_verified : World :=
  with_session {[ "verified_voter_email" := "ravi@example.org" ]}
    (post (platform := demo_platform) (Some client_accepting) ballot two_voter_world).2.

Lemma vote_is_refused_when_recording_fails_witness :
  (post (platform := demo_platform) (Some client_accepting) ballot ravi_verified).1
  = Returns (failed "An error occurred while casting your vote. Please try again.")
  /\ db (post (platform := demo_platform) (Some client_accepting) ballot ravi_verified).2
     = db ravi_verified
  /\ session (post (platform := demo_platform) (Some client_accepting) ballot
                ravi_verified).2
     = session ravi_verified
  /\ LibCall SendRawTransaction false
     ∈ trace (post (platform := demo_platform) (Some client_accepting) ballot
                ravi_verified).2.
Proof.
  apply (vote_is_refused_when_recording_fails (platform := demo_platform)
           client_accepting ballot ravi_verified
           "ravi@example.org" "PA" ravi party_a (MkVotingSession true 0 3600000000)
           demo_account
           (generate_voter_hash (platform := demo_platform) client_accepting
              "ravi@example.org" "432143214321" "voter-2")
           "tx" "signed" demo_tx_hash 1 1 0 1337 (demo_receipt 1)
           (MkNetwork "uuid-0" "default" "http://127.0.0.1:8545" 1337 true 2000000));
    first [ reflexivity | discriminate | vm_compute; reflexivity
          | apply list_elem_of_In; vm_compute; tauto ].
Defined.

End ViewsExtra.
